(** * CustomDataAnalyzer: cleaning and aggregation pipeline

    A shallow embedding of [CustomDataAnalyzer.py] (functions [clean_data],
    [summary_stats], [get_top_genres], [get_top_rated_movies] and
    [get_year_counts]) together with the part of pandas those functions call.

    Conventions of the embedding.
    - A cell is a missing value ([NaN], which also stands for [None]), a
      Python [str] or a number.  A string is held as the bytes of its UTF-8
      encoding.  Numbers are exact rationals: Python's [int] and [float] are
      not told apart (as [1 == 1.0] in Python), and rounding, infinities and
      signed zeros are left out: no statement below gives the value of a
      mean of numbers.
    - A column has a dtype, [object] or numeric ([int64] and [float64] are
      merged: no branch of the program tells them apart).
    - A DataFrame is its column index with the dtypes and the sequence of its
      rows, a row being a mapping from column labels to cells.  Column labels
      are unique, as [read_csv] makes them.
    - Python exceptions are explicit: a function that can raise returns a
      [result].
    - The two string grammars of the interpreter, the one of [pd.to_numeric]
      / [float(str)] and the one of [int(str)], are parameters of the
      development. *)

From Stdlib Require Import QArith Qcanon ZArith String Ascii.
From stdpp Require Import base option gmap strings list sorting.

Set Default Proof Using "Type".

(** ** Exceptions *)

Inductive exn := ValueError | TypeError | AttributeError.

Inductive result (A : Type) :=
| Ok (a : A)
| Raise (e : exn).
Arguments Ok {A} a.
Arguments Raise {A} e.

Definition bind {A B} (m : result A) (k : A -> result B) : result B :=
  match m with
  | Ok a => k a
  | Raise e => Raise e
  end.

Notation "'let!' x ':=' m 'in' k" := (bind m (fun x => k))
  (at level 10, x name, m at level 100, k at level 200).

(** ** Cells, columns, frames *)

#[global] Instance Qc_eq_decision : EqDecision Qc := Qc_eq_dec.

Inductive value :=
| NaN
| Str (s : string)
| Num (q : Qc).

#[global] Instance value_eq_decision : EqDecision value.
Proof. solve_decision. Defined.

Inductive dtype := DObject | DNumeric.

#[global] Instance dtype_eq_decision : EqDecision dtype.
Proof. solve_decision. Defined.

Record DataFrame := mkDataFrame {
  dtypes : gmap string dtype;
  rows : list (gmap string value)
}.

Definition of_Z (z : Z) : value := Num (Q2Qc (inject_Z z)).
Definition of_nat (n : nat) : value := of_Z (Z.of_nat n).

Definition isna (v : value) : bool :=
  match v with NaN => true | _ => false end.
Definition notna (v : value) : bool := negb (isna v).
Definition is_str (v : value) : bool :=
  match v with Str _ => true | _ => false end.
Definition is_num (v : value) : bool :=
  match v with Num _ => true | _ => false end.

(** [col in df.columns] *)
Definition has_column (c : string) (df : DataFrame) : bool :=
  match dtypes df !! c with Some _ => true | None => false end.

(** [df[c].dtype == 'object'] *)
Definition dtype_is_object (c : string) (df : DataFrame) : bool :=
  match dtypes df !! c with Some DObject => true | _ => false end.

(** One cell of a row; a label the row does not carry reads as missing. *)
Definition cell (c : string) (r : gmap string value) : value :=
  default NaN (r !! c).

(** [df[c]], as the sequence of its values. *)
Definition column (c : string) (df : DataFrame) : list value :=
  cell c <$> rows df.

(** [len(df)] *)
Definition len (df : DataFrame) : nat := length (rows df).

(** [pd.DataFrame()] *)
Definition empty_frame : DataFrame := mkDataFrame ∅ [].

(** [df.empty]: some axis has length zero. *)
Definition df_empty (df : DataFrame) : bool :=
  bool_decide (rows df = []) || bool_decide (dtypes df = ∅).

(** [df[mask]] for a mask computed row by row. *)
Definition filter_rows (keep : gmap string value -> bool) (df : DataFrame)
  : DataFrame :=
  mkDataFrame (dtypes df) (List.filter keep (rows df)).

(** [df[c] = f(df[c])] for an elementwise [f], the column getting dtype [dt]. *)
Definition assign (c : string) (dt : dtype) (f : value -> value)
  (df : DataFrame) : DataFrame :=
  mkDataFrame (<[c := dt]> (dtypes df))
              ((fun r => <[c := f (cell c r)]> r) <$> rows df).

(** [df.head(n)] and [s.head(n)]: the first [n] entries, all but the last
    [-n] when [n] is negative. *)
Definition head {A} (n : Z) (l : list A) : list A :=
  if (0 <=? n)%Z then take (Z.to_nat n) l
  else take (length l - Z.to_nat (- n)) l.

(** ** Python strings *)

(** A Python [str] is held as the bytes of its UTF-8 encoding.  Equality,
    the order of strings and the search for a comma are those of the bytes;
    whitespace is recognised character by character, a character taking one
    to three bytes. *)

(** [str.isspace] on the characters of one byte: TAB, LF, VT, FF, CR, FS,
    GS, RS, US and space. *)
Definition is_space (c : ascii) : bool :=
  let n := nat_of_ascii c in
  ((9 <=? n) && (n <=? 13)) || ((28 <=? n) && (n <=? 32)).

(** [str.isspace] on the characters of two bytes: U+0085 (C2 85) and
    U+00A0 (C2 A0). *)
Definition is_space2 (a b : ascii) : bool :=
  (nat_of_ascii a =? 194)
  && ((nat_of_ascii b =? 133) || (nat_of_ascii b =? 160)).

(** [str.isspace] on the characters of three bytes: U+1680 (E1 9A 80),
    U+2000 to U+200A (E2 80 80 to E2 80 8A), U+2028, U+2029 and U+202F
    (E2 80 A8, E2 80 A9, E2 80 AF), U+205F (E2 81 9F) and U+3000
    (E3 80 80). *)
Definition is_space3 (a b c : ascii) : bool :=
  let x := nat_of_ascii a in
  let y := nat_of_ascii b in
  let z := nat_of_ascii c in
  ((x =? 225) && (y =? 154) && (z =? 128))
  || ((x =? 226) && (y =? 128)
      && (((128 <=? z) && (z <=? 138))
          || (z =? 168) || (z =? 169) || (z =? 175)))
  || ((x =? 226) && (y =? 129) && (z =? 159))
  || ((x =? 227) && (y =? 128) && (z =? 128)).

(** The number of bytes of the whitespace character the string starts with,
    [0] when it starts with none. *)
Definition space_width (s : string) : nat :=
  match s with
  | String a s1 =>
      if is_space a then 1
      else match s1 with
           | String b s2 =>
               if is_space2 a b then 2
               else match s2 with
                    | String c _ => if is_space3 a b c then 3 else 0
                    | EmptyString => 0
                    end
           | EmptyString => 0
           end
  | EmptyString => 0
  end.

(** [s.lstrip()], [skip] bytes of a whitespace character being still to
    drop. *)
Fixpoint lstrip_from (skip : nat) (s : string) : string :=
  match s with
  | EmptyString => EmptyString
  | String _ s' =>
      match skip with
      | S k => lstrip_from k s'
      | O =>
          match space_width s with
          | S k => lstrip_from k s'
          | O => s
          end
      end
  end.

Definition lstrip (s : string) : string := lstrip_from 0 s.

(** The string holds whitespace only. *)
Definition blank (s : string) : bool :=
  match lstrip s with
  | EmptyString => true
  | _ => false
  end.

(** [s.rstrip()]: the string is cut where only whitespace follows. *)
Fixpoint rstrip (s : string) : string :=
  match s with
  | EmptyString => EmptyString
  | String c s' => if blank s then EmptyString else String c (rstrip s')
  end.

(** [s.strip()] *)
Definition strip (s : string) : string := rstrip (lstrip s).

(** [s.split(',')]: never empty, [''.split(',') == ['']]. *)
Fixpoint split_comma (s : string) : list string :=
  match s with
  | EmptyString => [EmptyString]
  | String c s' =>
      if Ascii.eqb c "," then EmptyString :: split_comma s'
      else match split_comma s' with
           | h :: t => String c h :: t
           | [] => [String c EmptyString]
           end
  end.

(** ** The [.str] accessor *)

(** [Series.str] exists for an object column whose values, nulls apart, are
    inferred as strings or as a mix with strings, or that holds nothing but
    nulls; any other column raises [AttributeError]. *)
Definition str_accessor (dt : dtype) (vs : list value) : result unit :=
  match dt with
  | DNumeric => Raise AttributeError
  | DObject =>
      if existsb is_str vs || forallb isna vs then Ok tt
      else Raise AttributeError
  end.

(** One element of [s.str.strip()]: not a string, then missing. *)
Definition str_strip_cell (v : value) : value :=
  match v with Str s => Str (strip s) | _ => NaN end.

(** One element of [s.str.split(',')]. *)
Definition str_split_cell (v : value) : option (list string) :=
  match v with Str s => Some (split_comma s) | _ => None end.

(** [s.explode()]: one entry per list element, a missing entry stays. *)
Definition explode (l : list (option (list string))) : list value :=
  l ≫= (fun o => match o with
                  | Some ((_ :: _) as ss) => Str <$> ss
                  | _ => [NaN]
                  end).

(** ** Ordering of cells *)

Definition Qc_leb (a b : Qc) : bool := Qle_bool a b.

(** [a <= b] between two cells of one kind. *)
Definition value_leb (a b : value) : bool :=
  match a, b with
  | Num x, Num y => Qc_leb x y
  | Str x, Str y => String.leb x y
  | _, _ => false
  end.

(** Python can order the values: all numbers, or all strings. *)
Definition comparable (vs : list value) : bool :=
  forallb is_num vs || forallb is_str vs.

(** Stable ascending insertion sort on a key. *)
Section Sort.
Context {A K : Type} (leb : K -> K -> bool) (key : A -> K).

Fixpoint insert_sorted (x : A) (l : list A) : list A :=
  match l with
  | [] => [x]
  | y :: l' =>
      if leb (key x) (key y) then x :: l
      else y :: insert_sorted x l'
  end.

Fixpoint stable_sort (l : list A) : list A :=
  match l with
  | [] => []
  | x :: l' => insert_sorted x (stable_sort l')
  end.

End Sort.

(** [nargsort(items, ascending, na_position='last')] applied to the entries:
    the non-null keys are sorted (reversed before and after when descending,
    which keeps ties in their first order), the null ones follow in their
    order.  Keys Python cannot compare raise [TypeError]. *)
Definition nargsort {A} (key : A -> value) (ascending : bool) (l : list A)
  : result (list A) :=
  let non_nans := List.filter (fun x => notna (key x)) l in
  let nans := List.filter (fun x => isna (key x)) l in
  if comparable (key <$> non_nans) then
    Ok ((if ascending then stable_sort value_leb key non_nans
         else rev (stable_sort value_leb key (rev non_nans))) ++ nans)
  else Raise TypeError.

(** [df.sort_values(by=c, ascending=asc)] *)
Definition sort_values (c : string) (ascending : bool) (df : DataFrame)
  : result DataFrame :=
  let! rs := nargsort (cell c) ascending (rows df) in
  Ok (mkDataFrame (dtypes df) rs).

(** ** Reductions and tallies *)

Definition nums (vs : list value) : list Qc :=
  omap (fun v => match v with Num q => Some q | _ => None end) vs.

Definition value_min (a b : value) : value := if value_leb a b then a else b.
Definition value_max (a b : value) : value := if value_leb a b then b else a.

(** [s.min()] and [s.max()] with [skipna]: missing when nothing is left, the
    extremum of the numbers; strings are compared only when the column has no
    null (a null is filled with an infinity first), and a comparison between
    a string and a number raises [TypeError]. *)
Definition series_reduce (pick : value -> value -> value) (vs : list value)
  : result value :=
  match List.filter notna vs with
  | [] => Ok NaN
  | v :: nn =>
      if forallb is_num (v :: nn) || forallb is_str vs
      then Ok (foldl pick v nn)
      else Raise TypeError
  end.

Definition series_min := series_reduce value_min.
Definition series_max := series_reduce value_max.

Definition Qc_sum (qs : list Qc) : Qc := foldr Qcplus (Q2Qc 0) qs.

(** [s.mean()] with [skipna]: the sum of the non-null values over their
    number, missing when there is none; a string cannot be summed.  The
    quotient is exact here, where float64 rounds: the statements below use
    that a mean is returned and when it is NaN, never its value. *)
Definition series_mean (vs : list value) : result value :=
  let nn := List.filter notna vs in
  if existsb is_str nn then Raise TypeError
  else match nums nn with
       | [] => Ok NaN
       | qs => Ok (Num (Qcdiv (Qc_sum qs)
                              (Q2Qc (inject_Z (Z.of_nat (length qs))))))
       end.

(** The first occurrence of each element, in order. *)
Fixpoint keep_first {A} `{EqDecision A} (seen l : list A) : list A :=
  match l with
  | [] => []
  | x :: l' =>
      if bool_decide (x ∈ seen) then keep_first seen l'
      else x :: keep_first (x :: seen) l'
  end.

Definition count_of (k : value) (vs : list value) : nat :=
  length (List.filter (fun v => bool_decide (v = k)) vs).

(** [s.value_counts()]: nulls dropped, one entry per distinct value in order
    of first appearance, then sorted by count, largest first. *)
Definition value_counts (vs : list value) : list (value * nat) :=
  let nn := List.filter notna vs in
  let tally := (fun k => (k, count_of k nn)) <$> keep_first [] nn in
  rev (stable_sort Nat.leb snd (rev tally)).

(** [s.sort_index()] *)
Definition sort_index (s : list (value * nat)) : result (list (value * nat)) :=
  nargsort fst true s.

(** [df.drop_duplicates()]: the first of equal rows is kept. *)
Definition drop_duplicates (df : DataFrame) : DataFrame :=
  mkDataFrame (dtypes df) (keep_first [] (rows df)).

(** [df.select_dtypes(include=['object']).columns] *)
Definition object_columns (df : DataFrame) : list string :=
  (map_to_list (filter (fun kd => kd.2 = DObject) (dtypes df))).*1.

(** [df[c].str.strip()] assigned back to [df[c]], for an object column. *)
Definition str_strip_column (c : string) (df : DataFrame) : result DataFrame :=
  let! _ := str_accessor DObject (column c df) in
  Ok (assign c DObject str_strip_cell df).

(** The program, over the two string grammars. *)
Section Program.
Variable to_double : string -> option Qc.
Variable int_of_str : string -> option Z.

(** [int(v)]: a number is truncated towards zero, a string is parsed, NaN
    raises [ValueError].  An infinity, on which [int] raises OverflowError,
    is no value of the embedding. *)
Definition py_int (v : value) : result Z :=
  match v with
  | Num q => Ok (Z.quot (Qnum q) (Z.pos (Qden q)))
  | Str s => match int_of_str s with
             | Some z => Ok z
             | None => Raise ValueError
             end
  | NaN => Raise ValueError
  end.

(** [float(v)] *)
Definition py_float (v : value) : result value :=
  match v with
  | Str s => match to_double s with
             | Some q => Ok (Num q)
             | None => Raise ValueError
             end
  | _ => Ok v
  end.

(** One element of [pd.to_numeric(s, errors='coerce')] on an object column. *)
Definition to_numeric_cell (v : value) : value :=
  match v with
  | Str s => match to_double s with
             | Some q => Num q
             | None => NaN
             end
  | _ => v
  end.

(** [pd.to_numeric(df[c], errors='coerce')], elementwise: a numeric column
    is returned as it is. *)
Definition to_numeric (c : string) (df : DataFrame) : value -> value :=
  match dtypes df !! c with
  | Some DNumeric => fun v => v
  | _ => to_numeric_cell
  end.

(** *** clean_data *)

(** [for col in str_cols: df[col] = df[col].str.strip()] *)
Fixpoint strip_columns (str_cols : list string) (df : DataFrame)
  : result DataFrame :=
  match str_cols with
  | [] => Ok df
  | col :: str_cols' =>
      let! df' := str_strip_column col df in
      strip_columns str_cols' df'
  end.

(** [df = df[df['title'].notna()]], when there is a title column. *)
Definition drop_missing_title (df : DataFrame) : DataFrame :=
  if has_column "title" df
  then filter_rows (fun r => notna (cell "title" r)) df
  else df.

(** [df['release_year'] = pd.to_numeric(df['release_year'], errors='coerce')],
    when there is such a column. *)
Definition coerce_release_year (df : DataFrame) : DataFrame :=
  if has_column "release_year" df
  then assign "release_year" DNumeric (to_numeric "release_year" df) df
  else df.

Definition clean_data (df : DataFrame) : result DataFrame :=
  let df := drop_duplicates df in
  let! df := strip_columns (object_columns df) df in
  let df := drop_missing_title df in
  let df := coerce_release_year df in
  Ok df.

(** *** summary_stats *)

(** [(df[c] == s).sum()] *)
Definition count_equal (c : string) (s : string) (df : DataFrame) : nat :=
  length (List.filter (fun v => bool_decide (v = Str s)) (column c df)).

(** The loop over the score columns: the first one present gives the
    average and ends the loop. *)
Fixpoint average_loop (cols : list string) (df : DataFrame)
  (stats : gmap string value) : result (gmap string value) :=
  match cols with
  | [] => Ok stats
  | col :: cols' =>
      if has_column col df then
        let! m := series_mean (column col df) in
        let! f := py_float m in
        Ok (<["average_imdb_score" := f]> stats)
      else average_loop cols' df stats
  end.

Definition summary_stats (df : DataFrame) : result (gmap string value) :=
  let stats : gmap string value := ∅ in
  let stats := <["total_titles" := of_nat (len df)]> stats in
  let stats :=
    if has_column "type" df then
      let stats := <["num_movies" := of_nat (count_equal "type" "Movie" df)]> stats in
      <["num_tv_shows" := of_nat (count_equal "type" "TV Show" df)]> stats
    else stats in
  let! stats :=
    if has_column "release_year" df then
      let! lo := series_min (column "release_year" df) in
      let! earliest := py_int lo in
      let stats := <["earliest_year" := of_Z earliest]> stats in
      let! hi := series_max (column "release_year" df) in
      let! latest := py_int hi in
      Ok (<["latest_year" := of_Z latest]> stats)
    else Ok stats in
  average_loop ["IMDb Score"; "IMDB Score"; "imdb_score"] df stats.

(** *** get_top_genres *)

Definition genre_column (df : DataFrame) : option string :=
  if has_column "listed_in" df then Some "listed_in"
  else if has_column "genre" df then Some "genre"
  else None.

(** [df[c].dtype], for a column of the frame. *)
Definition dtype_of (c : string) (df : DataFrame) : dtype :=
  default DObject (dtypes df !! c).

Definition get_top_genres (df : DataFrame) (n : Z)
  : result (list (value * nat)) :=
  match genre_column df with
  | Some genre_col =>
      let! _ := str_accessor (dtype_of genre_col df) (column genre_col df) in
      let exploded := explode (str_split_cell <$> column genre_col df) in
      let! _ := str_accessor DObject exploded in
      let genre_series := str_strip_cell <$> exploded in
      let genre_counts := value_counts genre_series in
      Ok (head n genre_counts)
  | None => Ok []
  end.

(** *** get_top_rated_movies *)

(** The loop that picks the rating column: a [rating] column of dtype object
    is passed over, the first other candidate present is taken. *)
Fixpoint rating_loop (cols : list string) (df : DataFrame) : option string :=
  match cols with
  | [] => None
  | col :: cols' =>
      if has_column col df then
        if bool_decide (col = "rating") && dtype_is_object col df
        then rating_loop cols' df
        else Some col
      else rating_loop cols' df
  end.

Definition rating_column (df : DataFrame) : option string :=
  rating_loop ["IMDb Score"; "IMDB Score"; "imdb_score"; "rating"] df.

Definition is_movie (r : gmap string value) : bool :=
  bool_decide (cell "type" r = Str "Movie").

(** The branch taken once a rating column is found. *)
Definition rank_by (rating_col : string) (df : DataFrame) (n : Z)
  : result DataFrame :=
  let movies_df :=
    if has_column "type" df then filter_rows is_movie df else df in
  let! sorted := sort_values rating_col false movies_df in
  Ok (mkDataFrame (dtypes sorted) (head n (rows sorted))).

Definition get_top_rated_movies (df : DataFrame) (n : Z) : result DataFrame :=
  match rating_column df with
  | Some rating_col => rank_by rating_col df n
  | None => Ok empty_frame
  end.

(** *** get_year_counts *)

Definition get_year_counts (df : DataFrame) : result (list (value * nat)) :=
  if has_column "release_year" df
  then sort_index (value_counts (column "release_year" df))
  else Ok [].

End Program.

(** ** A concrete instance of the grammars: unsigned decimal integers *)

Definition digit_of (c : ascii) : option Z :=
  let n := nat_of_ascii c in
  if (48 <=? n) && (n <=? 57) then Some (Z.of_nat (n - 48)) else None.

Fixpoint digits_value (acc : Z) (s : string) : option Z :=
  match s with
  | EmptyString => Some acc
  | String c s' =>
      match digit_of c with
      | Some d => digits_value (10 * acc + d) s'
      | None => None
      end
  end.

Definition decimal_int (s : string) : option Z :=
  match s with
  | EmptyString => None
  | _ => digits_value 0 s
  end.

Definition decimal_double (s : string) : option Qc :=
  (fun z => Q2Qc (inject_Z z)) <$> decimal_int s.

(** ** Vocabulary of the statements *)

(** None of the three score columns is there. *)
Definition no_score_column (df : DataFrame) : Prop :=
  has_column "IMDb Score" df = false /\
  has_column "IMDB Score" df = false /\
  has_column "imdb_score" df = false.

(** Some score column is there. *)
Definition has_score_column (df : DataFrame) : bool :=
  existsb (fun c => has_column c df) ["IMDb Score"; "IMDB Score"; "imdb_score"].

(** The rows get_top_rated_movies ranks: those of type Movie when there is
    a type column, all of them otherwise. *)
Definition movie_pool (df : DataFrame) : list (gmap string value) :=
  if has_column "type" df
  then List.filter (fun r => bool_decide (cell "type" r = Str "Movie")) (rows df)
  else rows df.

(** Column [c] holds numbers and nulls only. *)
Definition numeric_on (c : string) (rs : list (gmap string value)) : Prop :=
  Forall (fun r => is_str (cell c r) = false) rs.

(** In a descending order with the nulls last, [a] may come before [b]. *)
Definition ranks_before (a b : value) : Prop :=
  match a, b with
  | _, NaN => True
  | NaN, _ => False
  | _, _ => value_leb b a = true
  end.

(** The rows with a rating, best first, and the rows without one. *)
Definition rated (c : string) (rs : list (gmap string value))
  : list (gmap string value) :=
  rev (stable_sort value_leb (cell c)
         (rev (List.filter (fun r => notna (cell c r)) rs))).
Definition unrated (c : string) (rs : list (gmap string value))
  : list (gmap string value) :=
  List.filter (fun r => isna (cell c r)) rs.

(** The trimmed tags of one genre field, and of a whole genre column. *)
Definition tags_of (v : value) : list string :=
  match v with
  | Str s => strip <$> split_comma s
  | _ => []
  end.
Definition all_tags (c : string) (df : DataFrame) : list string :=
  rows df ≫= (fun r => tags_of (cell c r)).

(** How often tag [g] occurs in a sequence of tags. *)
Definition occurrences (g : string) (l : list string) : nat :=
  length (List.filter (String.eqb g) l).

(** A cell [str.strip] leaves as it is: a trimmed string or a null. *)
Definition trimmed (v : value) : Prop :=
  match v with
  | Str s => strip s = s
  | NaN => True
  | Num _ => False
  end.

(** Every row carries column [c], trimmed. *)
Definition stripped_col (c : string) (df : DataFrame) : Prop :=
  forall r, r ∈ rows df -> exists v, r !! c = Some v /\ trimmed v.

(** What clean_data leaves behind, duplicates apart: object columns are
    trimmed, no title is missing, release_year is numeric. *)
Definition cleaned (df : DataFrame) : Prop :=
  (forall c, dtypes df !! c = Some DObject -> stripped_col c df) /\
  (has_column "title" df = true ->
   forall r, r ∈ rows df -> notna (cell "title" r) = true) /\
  (has_column "release_year" df = true ->
   dtypes df !! "release_year" = Some DNumeric /\
   forall r, r ∈ rows df -> is_Some (r !! "release_year")).

(** ** Sample frames *)

Definition num (z : Z) : value := of_Z z.

(** One row, all of whose release years are missing. *)
Definition all_null_years : DataFrame :=
  mkDataFrame {[ "release_year" := DNumeric ]}
              [ {[ "release_year" := NaN ]} ].

(** Content ratings under [rating], scores under [imdb_score]. *)
Definition content_rated : DataFrame :=
  mkDataFrame
    (list_to_map [("title", DObject); ("rating", DObject);
                  ("imdb_score", DNumeric)])
    [ list_to_map [("title", Str "A"); ("rating", Str "PG-13");
                   ("imdb_score", num 7)];
      list_to_map [("title", Str "B"); ("rating", Str "R");
                   ("imdb_score", num 9)] ].

(** Scores under [rating], and under no other name. *)
Definition only_rating : DataFrame :=
  mkDataFrame
    (list_to_map [("title", DObject); ("rating", DNumeric)])
    [ list_to_map [("title", Str "A"); ("rating", num 6)];
      list_to_map [("title", Str "B"); ("rating", num 9)] ].

(** No row, one column. *)
Definition empty_typed : DataFrame :=
  mkDataFrame {[ "type" := DObject ]} [].

(** No row, a score column. *)
Definition empty_scored : DataFrame :=
  mkDataFrame {[ "imdb_score" := DNumeric ]} [].

(** Three movies, one of them unrated, and a show. *)
Definition sample_movies : DataFrame :=
  mkDataFrame
    (list_to_map [("title", DObject); ("type", DObject);
                  ("imdb_score", DNumeric)])
    [ list_to_map [("title", Str "A"); ("type", Str "Movie");
                   ("imdb_score", num 7)];
      list_to_map [("title", Str "B"); ("type", Str "TV Show");
                   ("imdb_score", num 9)];
      list_to_map [("title", Str "C"); ("type", Str "Movie");
                   ("imdb_score", NaN)];
      list_to_map [("title", Str "D"); ("type", Str "Movie");
                   ("imdb_score", num 8)] ].

(** No row, under a title, a genre list and content ratings. *)
Definition empty_catalog : DataFrame :=
  mkDataFrame
    (list_to_map [("title", DObject); ("listed_in", DObject);
                  ("rating", DObject)])
    [].

(** Release years as read from a file with a damaged entry. *)
Definition raw_years : DataFrame :=
  mkDataFrame
    (list_to_map [("title", DObject); ("release_year", DObject)])
    [ list_to_map [("title", Str "A"); ("release_year", Str "2020")];
      list_to_map [("title", Str "B"); ("release_year", Str "abc")] ].

(** One title with a genre named twice. *)
Definition drama_row : DataFrame :=
  mkDataFrame {[ "listed_in" := DObject ]}
              [ {[ "listed_in" := Str "Drama, Comedy, Drama" ]} ].

(** Two titles that differ by a leading blank. *)
Definition spaced_titles : DataFrame :=
  mkDataFrame {[ "title" := DObject ]}
              [ {[ "title" := Str " A" ]}; {[ "title" := Str "A" ]} ].

(** ** Vocabulary of the further statements *)

(** The object columns hold strings and nulls, as [read_csv] fills them. *)
Definition text_frame (df : DataFrame) : Prop :=
  forall c r, dtypes df !! c = Some DObject -> r ∈ rows df ->
    is_num (cell c r) = false.

(** What clean_data makes of a cell of column [c] of the frame [df]: the
    cell of an object column is stripped, the release year is then read as a
    number. *)
Definition clean_cell (to_double : string -> option Qc) (df : DataFrame)
  (c : string) (v : value) : value :=
  let v := if dtype_is_object c df then str_strip_cell v else v in
  if bool_decide (c = "release_year") && has_column c df
  then to_numeric to_double c df v
  else v.

(** [int(q)] for a number: truncation towards zero. *)
Definition trunc (q : Qc) : Z := Z.quot (Qnum q) (Z.pos (Qden q)).


(** Numeric columns hold numbers and nulls. *)
Definition well_typed (df : DataFrame) : Prop :=
  forall c, dtypes df !! c = Some DNumeric -> numeric_on c (rows df).

(** ** The parts of main that compute *)

(** The rating main prints beside a title:
    [for col in [...]: if col in row.index: ...; rating_val = row[col]; break],
    [None] when no column is taken. *)
Fixpoint rating_val_loop (cols : list string) (top_movies : DataFrame)
  (row : gmap string value) : option value :=
  match cols with
  | [] => None
  | col :: cols' =>
      if has_column col top_movies then
        if bool_decide (col = "rating") && dtype_is_object col top_movies
        then rating_val_loop cols' top_movies row
        else Some (cell col row)
      else rating_val_loop cols' top_movies row
  end.

Definition rating_val (top_movies : DataFrame) (row : gmap string value)
  : option value :=
  rating_val_loop ["IMDb Score"; "IMDB Score"; "imdb_score"; "rating"]
    top_movies row.

(** [s.idxmax()] on a series that is not empty: the label of the first of
    the largest values. *)
Fixpoint idxmax_from (best : value * nat) (s : list (value * nat)) : value :=
  match s with
  | [] => best.1
  | kv :: s' =>
      if best.2 <? kv.2 then idxmax_from kv s' else idxmax_from best s'
  end.

(** [s.max()] on a series of counts that is not empty. *)
Definition counts_max (s : list (value * nat)) : nat :=
  foldr Nat.max 0 (snd <$> s).

(** The year with most releases and its number of titles, as main prints
    them: [if not year_counts.empty: max_year = int(year_counts.idxmax())],
    then [year_counts.max()]. *)
Definition most_releases (int_of_str : string -> option Z)
  (year_counts : list (value * nat)) : result (option (Z * nat)) :=
  match year_counts with
  | [] => Ok None
  | kv :: s' =>
      let! max_year := py_int int_of_str (idxmax_from kv s') in
      Ok (Some (max_year, counts_max year_counts))
  end.

(** ** Further sample frames *)

(** Years as numbers, one of them missing, 2019 twice. *)
Definition year_frame : DataFrame :=
  mkDataFrame
    (list_to_map [("title", DObject); ("release_year", DNumeric)])
    [ list_to_map [("title", Str "A"); ("release_year", num 2021)];
      list_to_map [("title", Str "B"); ("release_year", num 2019)];
      list_to_map [("title", Str "C"); ("release_year", NaN)];
      list_to_map [("title", Str "D"); ("release_year", num 2019)] ].

(** A genre column of numbers. *)
Definition numeric_genre : DataFrame :=
  mkDataFrame {[ "genre" := DNumeric ]} [ {[ "genre" := num 1 ]} ].

(** Scores read as text beside a score that is a number. *)
Definition mixed_scores : DataFrame :=
  mkDataFrame {[ "imdb_score" := DObject ]}
              [ {[ "imdb_score" := Str "N/A" ]}; {[ "imdb_score" := num 7 ]} ].

(** Scores read as text, under the only rating candidate. *)
Definition text_scores : DataFrame :=
  mkDataFrame {[ "imdb_score" := DObject ]}
              [ {[ "imdb_score" := Str "8.5" ]};
                {[ "imdb_score" := Str "N/A" ]};
                {[ "imdb_score" := Str "10" ]} ].

(** A genre field that starts with a no-break space (U+00A0, bytes C2 A0). *)
Definition nbsp_genres : DataFrame :=
  mkDataFrame {[ "listed_in" := DObject ]}
    [ {[ "listed_in" :=
           Str (String (ascii_of_nat 194)
                  (String (ascii_of_nat 160) "Drama,Drama")) ]} ].


(** * Properties *)

(** ** Strings *)

Lemma space_width_length (s : string) : space_width s <= String.length s.
Proof.
  destruct s as [|a [|b [|c s]]]; cbn; repeat case_match; lia.
Qed.

Lemma append_cons (a : ascii) (s t : string) :
  String.append (String a s) t = String a (String.append s t).
Proof. done. Qed.

Lemma append_nil (t : string) : String.append EmptyString t = t.
Proof. done. Qed.

(** A whitespace character is recognised from its own bytes: what follows
    them does not matter. *)
Lemma space_width_app (s t : string) :
  space_width s <> 0 -> space_width (String.append s t) = space_width s.
Proof.
  destruct s as [|a [|b [|c s]]];
    rewrite ?append_cons, ?append_nil; cbn [space_width]; try done.
  - destruct (is_space a); [done|]. by destruct t.
  - destruct (is_space a); [done|].
    destruct (is_space2 a b); [done|]. by destruct t.
Qed.

Lemma lstrip_fixed (s : string) : space_width s = 0 -> lstrip s = s.
Proof. destruct s as [|a s]; [done|]. unfold lstrip. cbn [lstrip_from]. by intros ->. Qed.

Lemma lstrip_from_head (k : nat) (s : string) :
  space_width (lstrip_from k s) = 0.
Proof.
  revert k. induction s as [|a s IH]; intros k; [done|].
  cbn [lstrip_from]. destruct k as [|k]; [|apply IH].
  destruct (space_width (String a s)) eqn:Hw; [done|apply IH].
Qed.

Lemma lstrip_head (s : string) : space_width (lstrip s) = 0.
Proof. apply lstrip_from_head. Qed.

(** Whitespace followed by whitespace is whitespace. *)
Lemma lstrip_from_app (k : nat) (s t : string) :
  k <= String.length s ->
  lstrip_from k s = EmptyString -> lstrip t = EmptyString ->
  lstrip_from k (String.append s t) = EmptyString.
Proof.
  revert k. induction s as [|a s IH]; intros k Hk Hs Ht.
  - cbn in Hk. rewrite append_nil. by replace k with 0 by lia.
  - rewrite append_cons. cbn [lstrip_from] in *. destruct k as [|k].
    + pose proof (space_width_length (String a s)) as Hlen.
      pose proof (space_width_app (String a s) t) as Happ.
      rewrite append_cons in Happ.
      destruct (space_width (String a s)) as [|j] eqn:Hw; [done|].
      rewrite Happ by done. apply IH; [cbn in Hlen; lia|done..].
    + apply IH; [cbn in Hk; lia|done..].
Qed.

Lemma blank_app (s t : string) :
  blank s = true -> blank t = true -> blank (String.append s t) = true.
Proof.
  unfold blank. intros Hs Ht.
  destruct (lstrip s) eqn:Hls; [|done]. destruct (lstrip t) eqn:Hlt; [|done].
  unfold lstrip in *. by rewrite lstrip_from_app by (done || lia).
Qed.

(** What rstrip removes is whitespace. *)
Lemma rstrip_split (s : string) :
  exists w, s = String.append (rstrip s) w /\ blank w = true.
Proof.
  induction s as [|c s (w & Hw & Hb)]; [by exists EmptyString|].
  cbn [rstrip]. destruct (blank (String c s)) eqn:Hbl.
  - by exists (String c s).
  - exists w. rewrite append_cons. by rewrite <- Hw.
Qed.

Lemma rstrip_not_blank (c : ascii) (s : string) :
  blank (String c s) = false -> blank (String c (rstrip s)) = false.
Proof.
  intros Hbl. apply not_true_is_false. intros Hr.
  destruct (rstrip_split s) as (w & Hw & Hb).
  pose proof (blank_app _ _ Hr Hb) as Happ.
  rewrite append_cons, <- Hw in Happ. congruence.
Qed.

Lemma rstrip_idemp (s : string) : rstrip (rstrip s) = rstrip s.
Proof.
  induction s as [|c s IH]; [done|]. cbn [rstrip].
  destruct (blank (String c s)) eqn:Hbl; [done|].
  cbn [rstrip]. by rewrite (rstrip_not_blank _ _ Hbl), IH.
Qed.

Lemma rstrip_head (s : string) :
  space_width s = 0 -> space_width (rstrip s) = 0.
Proof.
  intros Hs. destruct (rstrip_split s) as (w & Hw & _).
  destruct (space_width (rstrip s)) eqn:Hr; [done|].
  rewrite Hw, space_width_app in Hs by lia. lia.
Qed.

Lemma strip_idemp (s : string) : strip (strip s) = strip s.
Proof.
  unfold strip.
  rewrite (lstrip_fixed (rstrip (lstrip s))).
  - apply rstrip_idemp.
  - apply rstrip_head, lstrip_head.
Qed.

Lemma split_comma_nonempty (s : string) : split_comma s <> [].
Proof.
  induction s as [|c s IH]; simpl; [done|].
  destruct (Ascii.eqb c ","); [done|]. by destruct (split_comma s).
Qed.

(** ** First occurrences *)

Section KeepFirst.
Context {A : Type} `{EqDecision A}.

Lemma keep_first_sublist (seen l : list A) : sublist (keep_first seen l) l.
Proof.
  revert seen. induction l as [|x l IH]; intros seen; simpl; [done|].
  case_bool_decide; [apply sublist_cons | apply sublist_skip]; apply IH.
Qed.

Lemma keep_first_elem_of (seen l : list A) (x : A) :
  x ∈ keep_first seen l <-> x ∈ l /\ x ∉ seen.
Proof.
  revert seen. induction l as [|y l IH]; intros seen; simpl.
  - split; [by intros H%not_elem_of_nil|by intros [H%not_elem_of_nil _]].
  - case_bool_decide as Hy.
    + rewrite IH, elem_of_cons. split; [tauto|].
      intros [[->|Hx] Hs]; [done|tauto].
    + rewrite !elem_of_cons, IH, not_elem_of_cons. split.
      * intros [->|(Hx & Hne & Hs)]; tauto.
      * intros [[->|Hx] Hs]; [by left|].
        destruct (decide (x = y)) as [->|Hne]; [by left|tauto].
Qed.

Lemma keep_first_NoDup (seen l : list A) : NoDup (keep_first seen l).
Proof.
  revert seen. induction l as [|x l IH]; intros seen; simpl.
  - constructor.
  - case_bool_decide; [apply IH|].
    constructor; [|apply IH].
    rewrite keep_first_elem_of, not_elem_of_cons. tauto.
Qed.

Lemma keep_first_id (seen l : list A) :
  NoDup l -> (forall x, x ∈ l -> x ∉ seen) -> keep_first seen l = l.
Proof.
  revert seen. induction l as [|x l IH]; intros seen Hnd Hseen; simpl; [done|].
  apply NoDup_cons in Hnd as [Hx Hnd].
  rewrite bool_decide_eq_false_2 by (apply Hseen; by left).
  f_equal. apply IH; [done|].
  intros y Hy. apply not_elem_of_cons. split.
  - by intros ->.
  - apply Hseen. by right.
Qed.

Lemma keep_first_idemp (l : list A) :
  keep_first [] (keep_first [] l) = keep_first [] l.
Proof.
  apply keep_first_id; [apply keep_first_NoDup|].
  intros x _. apply not_elem_of_nil.
Qed.

End KeepFirst.

(** ** Sorting *)

Section SortFacts.
Context {A K : Type} (leb : K -> K -> bool) (key : A -> K).

Lemma insert_sorted_perm (x : A) (l : list A) :
  insert_sorted leb key x l ≡ₚ x :: l.
Proof.
  induction l as [|y l IH]; simpl; [done|].
  destruct (leb (key x) (key y)); [done|].
  rewrite IH. apply Permutation_swap.
Qed.

Lemma stable_sort_perm (l : list A) : stable_sort leb key l ≡ₚ l.
Proof.
  induction l as [|x l IH]; simpl; [done|].
  by rewrite insert_sorted_perm, IH.
Qed.

(** On keys that [leb] orders totally and transitively, the result is
    sorted. *)
Context (P : K -> Prop).
Hypothesis leb_total : forall a b, P a -> P b -> leb a b = true \/ leb b a = true.
Hypothesis leb_trans :
  forall a b c, P a -> P b -> P c ->
    leb a b = true -> leb b c = true -> leb a c = true.

Let R (x y : A) : Prop := leb (key x) (key y) = true.

Lemma insert_sorted_sorted (x : A) (l : list A) :
  P (key x) -> Forall (fun y => P (key y)) l ->
  StronglySorted R l -> StronglySorted R (insert_sorted leb key x l).
Proof using leb_total leb_trans.
  intros Hx. induction l as [|y l IH]; intros HP Hs; simpl.
  - repeat constructor.
  - apply Forall_cons in HP as [Hy HP].
    apply StronglySorted_cons in Hs as [Hyl Hs].
    destruct (leb (key x) (key y)) eqn:Hxy.
    + apply StronglySorted_cons. split.
      * constructor; [exact Hxy|].
        rewrite Forall_forall in Hyl, HP |- *. intros z Hz.
        apply (leb_trans _ (key y)); [done|done|by apply HP|done|by apply Hyl].
      * by apply StronglySorted_cons.
    + apply StronglySorted_cons. split; [|by apply IH].
      rewrite (insert_sorted_perm x l). constructor; [|done].
      destruct (leb_total (key x) (key y)) as [H|H]; [done|done|congruence|exact H].
Qed.

Lemma stable_sort_sorted (l : list A) :
  Forall (fun y => P (key y)) l -> StronglySorted R (stable_sort leb key l).
Proof using leb_total leb_trans.
  induction l as [|x l IH]; intros HP; simpl; [constructor|].
  apply Forall_cons in HP as [Hx HP].
  apply insert_sorted_sorted; [done| |by apply IH].
  by rewrite stable_sort_perm.
Qed.

End SortFacts.

Lemma StronglySorted_rev {A} (R : A -> A -> Prop) (l : list A) :
  StronglySorted R l -> StronglySorted (flip R) (rev l).
Proof.
  induction l as [|x l IH]; simpl; intros Hs; [constructor|].
  apply StronglySorted_cons in Hs as [Hx Hs].
  apply StronglySorted_app. split_and!.
  - rewrite Forall_forall in Hx. intros y z Hy Hz.
    apply list_elem_of_singleton in Hz as ->.
    apply Hx. apply list_elem_of_In, in_rev. by apply list_elem_of_In.
  - by apply IH.
  - repeat constructor.
Qed.

(** ** Column lookups *)

Lemma filter_notna_all_null (c : string) (rs : list (gmap string value)) :
  Forall (fun r => cell c r = NaN) rs ->
  List.filter notna (cell c <$> rs) = [].
Proof.
  induction 1 as [|r rs Hr _ IH]; simpl; [done|]. by rewrite Hr.
Qed.

(** ** summary_stats *)

Section SummaryStats.
Variable to_double : string -> option Qc.
Variable int_of_str : string -> option Z.

(** C1 (the code departs from it): with a release_year column that holds
    nothing but nulls, [min()] is NaN and [int(NaN)] raises: summary_stats
    returns no statistics, it raises ValueError. *)
Theorem summary_stats_all_null_year_raises (df : DataFrame) :
  has_column "release_year" df = true ->
  Forall (fun r => cell "release_year" r = NaN) (rows df) ->
  summary_stats to_double int_of_str df = Raise ValueError.
Proof.
  intros Hcol Hnull. unfold summary_stats. rewrite Hcol.
  unfold series_min, series_reduce, column.
  by rewrite (filter_notna_all_null _ _ Hnull).
Qed.

Lemma average_loop_key (cols : list string) (df : DataFrame)
    (stats stats' : gmap string value) :
  average_loop to_double cols df stats = Ok stats' ->
  if existsb (fun c => has_column c df) cols
  then is_Some (stats' !! "average_imdb_score")
  else stats' = stats.
Proof.
  induction cols as [|c cols IH]; simpl; [by intros [= ->]|].
  destruct (has_column c df); simpl; [|done].
  destruct (series_mean (column c df)) as [m|]; simpl; [|done].
  destruct (py_float to_double m) as [f|]; simpl; [|done].
  intros [= <-]. rewrite lookup_insert_eq. by eexists.
Qed.

Lemma summary_stats_inv (df : DataFrame) (stats : gmap string value) :
  summary_stats to_double int_of_str df = Ok stats ->
  exists stats0,
    stats0 !! "average_imdb_score" = None /\
    average_loop to_double ["IMDb Score"; "IMDB Score"; "imdb_score"]
      df stats0 = Ok stats.
Proof.
  unfold summary_stats.
  set (s1 := if has_column "type" df then _ else _).
  assert (Hs1 : s1 !! "average_imdb_score" = None).
  { subst s1. by destruct (has_column "type" df). }
  destruct (has_column "release_year" df); simpl.
  - destruct (series_min _) as [lo|]; simpl; [|done].
    destruct (py_int _ lo) as [e|]; simpl; [|done].
    destruct (series_max _) as [hi|]; simpl; [|done].
    destruct (py_int _ hi) as [l|]; simpl; [|done].
    intros H. eexists. split; [|exact H].
    by rewrite !lookup_insert_ne.
  - intros H. by exists s1.
Qed.

Lemma average_loop_all_null (cols : list string) (df : DataFrame)
    (stats : gmap string value) :
  existsb (fun c => has_column c df) cols = true ->
  (forall c r, c ∈ cols -> r ∈ rows df -> cell c r = NaN) ->
  average_loop to_double cols df stats
  = Ok (<["average_imdb_score" := NaN]> stats).
Proof.
  induction cols as [|c cols IH]; simpl; [done|]. intros Hex Hnull.
  destruct (has_column c df); simpl in *.
  - unfold series_mean, column.
    rewrite filter_notna_all_null; [done|].
    apply Forall_forall. intros r Hr. apply Hnull; [left|done].
  - apply IH; [done|]. intros c' r Hc'. apply Hnull. by right.
Qed.

(** C8: in every dictionary summary_stats returns, the key
    average_imdb_score is there exactly when one of the columns IMDb Score,
    IMDB Score, imdb_score is there, whatever the data; and for such a column
    without any non-null value (no row at all, or nulls only) the dictionary
    is returned and carries the key with the value NaN. *)
Theorem average_key_follows_column (df : DataFrame) :
  (forall stats, summary_stats to_double int_of_str df = Ok stats ->
     (is_Some (stats !! "average_imdb_score") <-> has_score_column df = true))
  /\
  (has_column "release_year" df = false ->
   has_score_column df = true ->
   (forall c r, c ∈ ["IMDb Score"; "IMDB Score"; "imdb_score"] ->
                r ∈ rows df -> cell c r = NaN) ->
   exists stats, summary_stats to_double int_of_str df = Ok stats /\
                 stats !! "average_imdb_score" = Some NaN).
Proof.
  split.
  - intros stats Hs.
    destruct (summary_stats_inv _ _ Hs) as (stats0 & Hnone & Hloop).
    apply average_loop_key in Hloop. unfold has_score_column.
    destruct (existsb _ _); [done|]. subst stats.
    rewrite Hnone. split; [by intros [? ?]|done].
  - intros Hyear Hcol Hnull. unfold summary_stats. rewrite Hyear. cbn [bind].
    rewrite average_loop_all_null by done.
    eexists. split; [done|]. by rewrite lookup_insert_eq.
Qed.

(** C9: summary_stats looks for IMDb Score, IMDB Score and imdb_score only:
    without them it reports no average, whatever a rating column holds;
    get_top_rated_movies then ranks by a rating column that is not of dtype
    object.  The frame [only_rating] shows both at once. *)
Theorem rating_candidates_differ :
  (forall df stats, no_score_column df ->
     summary_stats to_double int_of_str df = Ok stats ->
     stats !! "average_imdb_score" = None) /\
  (forall df n, no_score_column df ->
     has_column "rating" df = true -> dtype_is_object "rating" df = false ->
     get_top_rated_movies df n = rank_by "rating" df n) /\
  (no_score_column only_rating /\
   has_column "rating" only_rating = true /\
   dtype_is_object "rating" only_rating = false /\
   summary_stats to_double int_of_str only_rating
   = Ok {[ "total_titles" := num 2 ]} /\
   exists top, get_top_rated_movies only_rating 10 = Ok top /\
               cell "rating" <$> rows top = [num 9; num 6]).
Proof.
  split_and!.
  - intros df stats (H1 & H2 & H3) Hs.
    destruct (summary_stats_inv _ _ Hs) as (stats0 & Hnone & Hloop).
    apply average_loop_key in Hloop. simpl in Hloop.
    rewrite H1, H2, H3 in Hloop. simpl in Hloop. by subst.
  - intros df n (H1 & H2 & H3) Hr Ho.
    unfold get_top_rated_movies, rating_column. simpl.
    by rewrite H1, H2, H3, Hr, Ho.
  - done.
  - done.
  - done.
  - reflexivity.
  - eexists. split; reflexivity.
Qed.

End SummaryStats.

Lemma summary_stats_all_null_year_raises_witness :
  summary_stats decimal_double decimal_int all_null_years = Raise ValueError.
Proof.
  apply summary_stats_all_null_year_raises.
  - reflexivity.
  - repeat constructor.
Defined.

Lemma average_key_follows_column_witness :
  exists stats,
    summary_stats decimal_double decimal_int empty_scored = Ok stats /\
    stats !! "average_imdb_score" = Some NaN.
Proof.
  apply (proj2 (average_key_follows_column decimal_double decimal_int
                  empty_scored)).
  - reflexivity.
  - reflexivity.
  - intros c r _ Hr. inversion Hr.
Defined.

Lemma rating_candidates_differ_witness :
  get_top_rated_movies only_rating 10 = rank_by "rating" only_rating 10.
Proof.
  apply (proj1 (proj2 (rating_candidates_differ decimal_double decimal_int)));
    [repeat split | reflexivity | reflexivity].
Defined.

(** ** get_top_rated_movies: the choice of the rating column *)

Lemma rating_column_imdb_score (df : DataFrame) :
  has_column "IMDb Score" df = false -> has_column "IMDB Score" df = false ->
  has_column "imdb_score" df = true ->
  rating_column df = Some "imdb_score".
Proof.
  intros H1 H2 H3. unfold rating_column. simpl. by rewrite H1, H2, H3.
Qed.

Lemma rating_column_not_text_rating (df : DataFrame) :
  dtype_is_object "rating" df = true -> rating_column df <> Some "rating".
Proof.
  intros Ho. unfold rating_column. simpl. rewrite Ho.
  destruct (has_column "IMDb Score" df); [done|].
  destruct (has_column "IMDB Score" df); [done|].
  destruct (has_column "imdb_score" df); [done|].
  by destruct (has_column "rating" df).
Qed.

Lemma rating_column_none (df : DataFrame) :
  no_score_column df ->
  has_column "rating" df = false \/ dtype_is_object "rating" df = true ->
  rating_column df = None.
Proof.
  intros (H1 & H2 & H3) Hr. unfold rating_column. simpl.
  rewrite H1, H2, H3.
  destruct Hr as [Hr|Hr]; rewrite Hr; [done|].
  by destruct (has_column "rating" df).
Qed.

(** ** Ordering of numbers *)

Lemma value_leb_total (a b : value) :
  is_num a = true -> is_num b = true ->
  value_leb a b = true \/ value_leb b a = true.
Proof.
  destruct a as [| |x], b as [| |y]; try done. intros _ _. simpl.
  unfold Qc_leb. rewrite !Qle_bool_iff.
  destruct (Qlt_le_dec x y) as [H|H]; [left; by apply Qlt_le_weak|by right].
Qed.

Lemma value_leb_trans (a b c : value) :
  is_num a = true -> is_num b = true -> is_num c = true ->
  value_leb a b = true -> value_leb b c = true -> value_leb a c = true.
Proof.
  destruct a as [| |x], b as [| |y], c as [| |z]; try done. intros _ _ _. simpl.
  unfold Qc_leb. rewrite !Qle_bool_iff. apply Qle_trans.
Qed.

Lemma StronglySorted_weaken {A} (R R' : A -> A -> Prop) (l : list A) :
  (forall x y, x ∈ l -> y ∈ l -> R x y -> R' x y) ->
  StronglySorted R l -> StronglySorted R' l.
Proof.
  induction l as [|x l IH]; intros HR Hs; [constructor|].
  apply StronglySorted_cons in Hs as [Hx Hs].
  apply StronglySorted_cons. split.
  - rewrite Forall_forall in Hx |- *. intros y Hy.
    apply HR; [by left|by right|by apply Hx].
  - apply IH; [|done]. intros y z Hy Hz. apply HR; by right.
Qed.

Lemma elem_of_filter_bool {A} (f : A -> bool) (l : list A) (x : A) :
  x ∈ List.filter f l <-> x ∈ l /\ f x = true.
Proof. rewrite !list_elem_of_In. apply filter_In. Qed.

Lemma filter_split_perm {A} (f : A -> bool) (l : list A) :
  List.filter f l ++ List.filter (fun x => negb (f x)) l ≡ₚ l.
Proof.
  induction l as [|x l IH]; simpl; [done|].
  destruct (f x); simpl; [by rewrite IH|].
  by rewrite <- Permutation_middle, IH.
Qed.

(** ** get_top_rated_movies: the ranking *)

Lemma head_of_nat {A} (n : nat) (l : list A) : head (Z.of_nat n) l = take n l.
Proof.
  unfold head. rewrite (proj2 (Z.leb_le 0 (Z.of_nat n))) by lia.
  by rewrite Nat2Z.id.
Qed.

Lemma movie_pool_rows (df : DataFrame) :
  rows (if has_column "type" df then filter_rows is_movie df else df)
  = movie_pool df.
Proof. unfold movie_pool. by destruct (has_column "type" df). Qed.

Lemma movie_pool_dtypes (df : DataFrame) :
  dtypes (if has_column "type" df then filter_rows is_movie df else df)
  = dtypes df.
Proof. by destruct (has_column "type" df). Qed.

Lemma movie_pool_elem_of (df : DataFrame) (r : gmap string value) :
  r ∈ movie_pool df -> r ∈ rows df.
Proof.
  unfold movie_pool. destruct (has_column "type" df); [|done].
  rewrite elem_of_filter_bool. tauto.
Qed.

Lemma numeric_comparable (c : string) (rs : list (gmap string value)) :
  numeric_on c rs ->
  comparable (cell c <$> List.filter (fun r => notna (cell c r)) rs) = true.
Proof.
  intros Hnum. unfold comparable. apply orb_true_intro. left.
  apply forallb_forall. intros v Hv.
  apply list_elem_of_In, list_elem_of_fmap in Hv as (r & -> & Hr).
  apply elem_of_filter_bool in Hr as [Hr Hnn].
  unfold numeric_on in Hnum. rewrite Forall_forall in Hnum.
  specialize (Hnum r Hr). unfold notna in Hnn.
  by destruct (cell c r).
Qed.

(** With numbers and nulls in the rating column, the ranking is returned:
    the rated rows of the pool, best first, then the unrated ones, cut after
    [n] rows. *)
Lemma rank_by_numeric (c : string) (df : DataFrame) (n : nat) :
  numeric_on c (rows df) ->
  rank_by c df (Z.of_nat n)
  = Ok (mkDataFrame (dtypes df)
          (take n (rated c (movie_pool df) ++ unrated c (movie_pool df)))).
Proof.
  intros Hnum. unfold rank_by, sort_values, nargsort.
  rewrite movie_pool_rows, movie_pool_dtypes.
  rewrite numeric_comparable.
  - cbn [bind dtypes rows]. by rewrite head_of_nat.
  - unfold numeric_on in *. rewrite Forall_forall in Hnum |- *.
    intros r Hr. by apply Hnum, movie_pool_elem_of.
Qed.

Lemma rated_perm (c : string) (rs : list (gmap string value)) :
  rated c rs ≡ₚ List.filter (fun r => notna (cell c r)) rs.
Proof.
  unfold rated.
  by rewrite <- Permutation_rev, stable_sort_perm, <- Permutation_rev.
Qed.

Lemma rated_notna (c : string) (rs : list (gmap string value))
    (r : gmap string value) :
  r ∈ rated c rs -> notna (cell c r) = true.
Proof. rewrite rated_perm, elem_of_filter_bool. tauto. Qed.

Lemma unrated_isna (c : string) (rs : list (gmap string value))
    (r : gmap string value) :
  r ∈ unrated c rs -> cell c r = NaN.
Proof.
  unfold unrated. rewrite elem_of_filter_bool. intros [_ H].
  by destruct (cell c r).
Qed.

Lemma ranking_perm (c : string) (rs : list (gmap string value)) :
  rated c rs ++ unrated c rs ≡ₚ rs.
Proof.
  rewrite rated_perm. unfold unrated, notna.
  rewrite <- (filter_split_perm (fun r => negb (isna (cell c r))) rs) at 3.
  apply Permutation_app; [done|].
  erewrite List.filter_ext; [done|]. intros r. simpl. by rewrite negb_involutive.
Qed.

Lemma ranking_sorted (c : string) (rs : list (gmap string value)) :
  numeric_on c rs ->
  StronglySorted (fun r1 r2 => ranks_before (cell c r1) (cell c r2))
    (rated c rs ++ unrated c rs).
Proof.
  intros Hnum. apply StronglySorted_app. split_and!.
  - intros r1 r2 _ H2. apply unrated_isna in H2. rewrite H2.
    unfold ranks_before. by destruct (cell c r1).
  - assert (Hkeys : forall r, r ∈ rated c rs -> is_num (cell c r) = true).
    { intros r Hr. pose proof (rated_notna _ _ _ Hr) as Hnn.
      rewrite rated_perm, elem_of_filter_bool in Hr.
      unfold numeric_on in Hnum. rewrite Forall_forall in Hnum.
      specialize (Hnum r (proj1 Hr)). unfold notna in Hnn.
      by destruct (cell c r). }
    apply (StronglySorted_weaken
             (flip (fun x y => value_leb (cell c x) (cell c y) = true))).
    + intros r1 r2 H1 H2 Hle. unfold flip in Hle.
      apply Hkeys in H1, H2. unfold ranks_before.
      destruct (cell c r1), (cell c r2); done.
    + unfold rated. apply StronglySorted_rev.
      apply (stable_sort_sorted value_leb (cell c)
               (fun v => is_num v = true) value_leb_total value_leb_trans).
      apply Forall_forall. intros r Hr. apply Hkeys.
      rewrite rated_perm.
      by apply list_elem_of_In, in_rev, list_elem_of_In in Hr.
  - apply (StronglySorted_weaken (fun _ _ => True)).
    + intros r1 r2 _ H2 _. apply unrated_isna in H2. rewrite H2.
      unfold ranks_before. by destruct (cell c r1).
    + induction (unrated c rs); constructor; [done|].
      by apply Forall_forall.
Qed.

(** C7: once a rating column [c] is found (its values numbers or nulls), the
    result is returned and holds the first [n] rows of a ranking of the pool,
    the pool being the rows of type Movie when there is a type column and all
    rows otherwise; the ranking is a rearrangement of the pool in descending
    order of [c]; the rows returned are rows of the frame, unchanged, under
    the same columns. *)
Theorem top_rated_ranking (df : DataFrame) (c : string) (n : nat) :
  rating_column df = Some c ->
  numeric_on c (rows df) ->
  exists ranked,
    get_top_rated_movies df (Z.of_nat n)
    = Ok (mkDataFrame (dtypes df) (take n ranked)) /\
    ranked ≡ₚ movie_pool df /\
    StronglySorted (fun r1 r2 => ranks_before (cell c r1) (cell c r2)) ranked /\
    (forall r, r ∈ take n ranked -> r ∈ rows df).
Proof.
  intros Hc Hnum.
  exists (rated c (movie_pool df) ++ unrated c (movie_pool df)).
  split_and!.
  - unfold get_top_rated_movies. rewrite Hc. by apply rank_by_numeric.
  - apply ranking_perm.
  - apply ranking_sorted. unfold numeric_on in *.
    rewrite Forall_forall in Hnum |- *.
    intros r Hr. by apply Hnum, movie_pool_elem_of.
  - intros r Hr. apply movie_pool_elem_of.
    rewrite <- (ranking_perm c). apply elem_of_take in Hr as (i & Hi & _).
    by eapply list_elem_of_lookup_2.
Qed.

Lemma top_rated_ranking_witness :
  exists ranked,
    get_top_rated_movies sample_movies (Z.of_nat 2)
    = Ok (mkDataFrame (dtypes sample_movies) (take 2 ranked)) /\
    ranked ≡ₚ movie_pool sample_movies /\
    StronglySorted
      (fun r1 r2 => ranks_before (cell "imdb_score" r1) (cell "imdb_score" r2))
      ranked /\
    (forall r, r ∈ take 2 ranked -> r ∈ rows sample_movies).
Proof.
  apply top_rated_ranking.
  - reflexivity.
  - repeat constructor.
Defined.

(** C10: the rows of the pool without a rating stay in the ranking, all of
    them, behind every rated row; so a row without a rating is among the [n]
    rows returned only when the pool has fewer than [n] rated rows. *)
Theorem top_rated_nulls_last (df : DataFrame) (c : string) (n : nat) :
  rating_column df = Some c ->
  numeric_on c (rows df) ->
  exists best,
    best ≡ₚ List.filter (fun r => notna (cell c r)) (movie_pool df) /\
    get_top_rated_movies df (Z.of_nat n)
    = Ok (mkDataFrame (dtypes df)
            (take n (best ++ List.filter (fun r => isna (cell c r))
                                         (movie_pool df)))) /\
    (forall top r,
       get_top_rated_movies df (Z.of_nat n) = Ok top ->
       r ∈ rows top -> cell c r = NaN -> length best < n).
Proof.
  intros Hc Hnum. exists (rated c (movie_pool df)).
  assert (Hrun : get_top_rated_movies df (Z.of_nat n)
                 = Ok (mkDataFrame (dtypes df)
                         (take n (rated c (movie_pool df)
                                  ++ unrated c (movie_pool df))))).
  { unfold get_top_rated_movies. rewrite Hc. by apply rank_by_numeric. }
  split_and!.
  - apply rated_perm.
  - exact Hrun.
  - intros top r Htop Hr Hnull. rewrite Hrun in Htop.
    injection Htop as <-. cbn [rows] in Hr.
    destruct (decide (length (rated c (movie_pool df)) < n)) as [|Hge]; [done|].
    rewrite take_app_le in Hr by lia.
    apply elem_of_take in Hr as (i & Hi & _).
    apply list_elem_of_lookup_2, rated_notna in Hi.
    unfold notna in Hi. by rewrite Hnull in Hi.
Qed.

Lemma top_rated_nulls_last_witness :
  exists best,
    best ≡ₚ List.filter (fun r => notna (cell "imdb_score" r))
              (movie_pool sample_movies) /\
    get_top_rated_movies sample_movies (Z.of_nat 3)
    = Ok (mkDataFrame (dtypes sample_movies)
            (take 3 (best ++ List.filter (fun r => isna (cell "imdb_score" r))
                                         (movie_pool sample_movies)))) /\
    (forall top r,
       get_top_rated_movies sample_movies (Z.of_nat 3) = Ok top ->
       r ∈ rows top -> cell "imdb_score" r = NaN -> length best < 3).
Proof.
  apply top_rated_nulls_last.
  - reflexivity.
  - repeat constructor.
Defined.

(** ** get_top_rated_movies: a text rating beside a numeric score *)

(** C4 (amended): a rating column of dtype object (content ratings such as
    PG-13 or R) is never the column ranked by; with a numeric imdb_score
    beside it (and neither IMDb Score nor IMDB Score before it) the result
    is the first [n] rows of the pool in descending order of imdb_score;
    and when none of IMDb Score, IMDB Score and imdb_score is there and
    rating is missing or of dtype object, the result is the empty frame, not
    an exception.  On [content_rated] the ranking is B (9) before A (7). *)
Theorem top_rated_skips_text_rating :
  (forall df, dtype_is_object "rating" df = true ->
     rating_column df <> Some "rating") /\
  (forall df (n : nat),
     dtype_is_object "rating" df = true ->
     has_column "imdb_score" df = true ->
     has_column "IMDb Score" df = false -> has_column "IMDB Score" df = false ->
     numeric_on "imdb_score" (rows df) ->
     exists ranked,
       get_top_rated_movies df (Z.of_nat n)
       = Ok (mkDataFrame (dtypes df) (take n ranked)) /\
       ranked ≡ₚ movie_pool df /\
       StronglySorted
         (fun r1 r2 =>
            ranks_before (cell "imdb_score" r1) (cell "imdb_score" r2))
         ranked) /\
  (forall df n, no_score_column df ->
     has_column "rating" df = false \/ dtype_is_object "rating" df = true ->
     get_top_rated_movies df n = Ok empty_frame /\
     df_empty empty_frame = true) /\
  (exists top,
     get_top_rated_movies content_rated 10 = Ok top /\
     cell "title" <$> rows top = [Str "B"; Str "A"] /\
     cell "imdb_score" <$> rows top = [num 9; num 7] /\
     cell "rating" <$> rows top = [Str "R"; Str "PG-13"]).
Proof.
  split_and!.
  - apply rating_column_not_text_rating.
  - intros df n _ H3 H1 H2 Hnum.
    exists (rated "imdb_score" (movie_pool df)
            ++ unrated "imdb_score" (movie_pool df)).
    split_and!.
    + unfold get_top_rated_movies.
      rewrite (rating_column_imdb_score df H1 H2 H3).
      by apply rank_by_numeric.
    + apply ranking_perm.
    + apply ranking_sorted. unfold numeric_on in *.
      rewrite Forall_forall in Hnum |- *.
      intros r Hr. by apply Hnum, movie_pool_elem_of.
  - intros df n Hno Hr. unfold get_top_rated_movies.
    by rewrite (rating_column_none df Hno Hr).
  - eexists. split_and!; reflexivity.
Qed.

Lemma top_rated_skips_text_rating_witness :
  exists ranked,
    get_top_rated_movies content_rated (Z.of_nat 10)
    = Ok (mkDataFrame (dtypes content_rated) (take 10 ranked)) /\
    ranked ≡ₚ movie_pool content_rated /\
    StronglySorted
      (fun r1 r2 =>
         ranks_before (cell "imdb_score" r1) (cell "imdb_score" r2))
      ranked.
Proof.
  apply (proj1 (proj2 top_rated_skips_text_rating) content_rated 10);
    [reflexivity..|repeat constructor].
Defined.

(** A frame whose only rating candidate is a column of text: no candidate
    is numeric, and yet three rows are returned, in the order of the
    strings. *)
Lemma text_score_is_ranked :
  dtype_is_object "imdb_score" text_scores = true /\
  has_column "IMDb Score" text_scores = false /\
  has_column "IMDB Score" text_scores = false /\
  has_column "rating" text_scores = false /\
  exists top,
    get_top_rated_movies text_scores 10 = Ok top /\
    df_empty top = false /\
    cell "imdb_score" <$> rows top = [Str "N/A"; Str "8.5"; Str "10"].
Proof.
  split_and!; [reflexivity..|].
  eexists. split_and!; reflexivity.
Qed.

(** ** Empty input *)

Lemma head_nil {A} (n : Z) : head n (@nil A) = [].
Proof. unfold head. destruct (0 <=? n)%Z; by rewrite take_nil. Qed.

Section EmptyInput.
Variable to_double : string -> option Qc.
Variable int_of_str : string -> option Z.

(** C3 (amended): for a frame without rows, get_top_rated_movies returns a
    frame without rows, get_year_counts returns the empty series,
    get_top_genres returns the empty series when the genre column is missing
    or of dtype object, and summary_stats returns exactly total_titles = 0
    when the frame has none of the columns type, release_year, IMDb Score,
    IMDB Score and imdb_score. *)
Theorem empty_table_views (df : DataFrame) (n : Z) :
  rows df = [] ->
  (exists top, get_top_rated_movies df n = Ok top /\
               rows top = [] /\ df_empty top = true) /\
  get_year_counts df = Ok [] /\
  (genre_column df = None \/
   (exists c, genre_column df = Some c /\ dtype_of c df = DObject) ->
   get_top_genres df n = Ok []) /\
  (has_column "type" df = false ->
   has_column "release_year" df = false ->
   no_score_column df ->
   summary_stats to_double int_of_str df = Ok {[ "total_titles" := num 0 ]}).
Proof.
  destruct df as [dt rs]. cbn [rows]. intros ->. split_and!.
  - unfold get_top_rated_movies.
    destruct (rating_column _) as [c|]; [|by eexists].
    unfold rank_by, sort_values, nargsort.
    destruct (has_column "type" _); cbn; rewrite head_nil; by eexists.
  - unfold get_year_counts. by destruct (has_column _ _).
  - intros [Hg|(c & Hg & Hdt)]; unfold get_top_genres; rewrite Hg; [done|].
    rewrite Hdt. cbn. by rewrite head_nil.
  - intros Ht Hy (H1 & H2 & H3). unfold summary_stats.
    rewrite Ht, Hy. cbn [bind average_loop]. by rewrite H1, H2, H3.
Qed.

End EmptyInput.

Lemma empty_table_views_witness :
  (exists top, get_top_rated_movies empty_catalog 10 = Ok top /\
               rows top = [] /\ df_empty top = true) /\
  get_year_counts empty_catalog = Ok [] /\
  (genre_column empty_catalog = None \/
   (exists c, genre_column empty_catalog = Some c /\
              dtype_of c empty_catalog = DObject) ->
   get_top_genres empty_catalog 10 = Ok []) /\
  (has_column "type" empty_catalog = false ->
   has_column "release_year" empty_catalog = false ->
   no_score_column empty_catalog ->
   summary_stats decimal_double decimal_int empty_catalog
   = Ok {[ "total_titles" := num 0 ]}).
Proof. apply empty_table_views. reflexivity. Defined.

(** A frame without rows whose statistics have more than one key. *)
Lemma empty_table_with_type_column :
  rows empty_typed = [] /\
  summary_stats decimal_double decimal_int empty_typed
  = Ok (<["num_tv_shows" := num 0]>
          (<["num_movies" := num 0]> {[ "total_titles" := num 0 ]})) /\
  summary_stats decimal_double decimal_int empty_typed
  <> Ok {[ "total_titles" := num 0 ]}.
Proof.
  split_and!; [reflexivity|reflexivity|].
  intros H.
  apply (f_equal (fun res => match res with
                             | Ok m => m !! "num_movies"
                             | Raise _ => None
                             end)) in H.
  vm_compute in H. discriminate H.
Qed.


(** ** get_top_genres *)

Lemma str_accessor_text (vs : list value) :
  Forall (fun v => is_num v = false) vs ->
  str_accessor DObject vs = Ok tt.
Proof.
  intros H. unfold str_accessor.
  enough (existsb is_str vs || forallb isna vs = true) as -> by done.
  induction H as [|v vs Hv _ IH]; [done|].
  destruct v; done.
Qed.

Lemma explode_cons (o : option (list string)) (l : list (option (list string))) :
  explode (o :: l)
  = match o with Some ((_ :: _) as ss) => Str <$> ss | _ => [NaN] end
    ++ explode l.
Proof. done. Qed.

Lemma explode_not_num (vs : list value) :
  Forall (fun v => is_num v = false) (explode (str_split_cell <$> vs)).
Proof.
  induction vs as [|v vs IH]; [constructor|].
  rewrite fmap_cons, explode_cons. apply Forall_app. split; [|done].
  destruct v as [|s|q]; cbn; try by repeat constructor.
  destruct (split_comma s); [by repeat constructor|].
  apply Forall_fmap, Forall_forall. by intros.
Qed.

Lemma filter_notna_strs (l : list string) :
  List.filter notna (Str <$> l) = Str <$> l.
Proof. induction l as [|x l IH]; [done|]. cbn. by rewrite IH. Qed.

Lemma exploded_tags (rs : list (gmap string value)) (c : string) :
  List.filter notna
    (str_strip_cell <$> explode (str_split_cell <$> (cell c <$> rs)))
  = Str <$> (rs ≫= (fun r => tags_of (cell c r))).
Proof.
  induction rs as [|r rs IH]; [done|].
  rewrite !fmap_cons, explode_cons, fmap_app, List.filter_app, IH.
  rewrite bind_cons, fmap_app. f_equal.
  destruct (cell c r) as [|s|q]; cbn; try done.
  pose proof (split_comma_nonempty s) as Hne.
  destruct (split_comma s) as [|t ts] eqn:Hs; [done|].
  rewrite <- list_fmap_compose.
  change (str_strip_cell ∘ Str) with (Str ∘ strip).
  rewrite list_fmap_compose. apply filter_notna_strs.
Qed.

Lemma count_of_strs (t : string) (l : list string) :
  count_of (Str t) (Str <$> l) = occurrences t l.
Proof.
  unfold count_of, occurrences. induction l as [|x l IH]; [done|]. cbn.
  destruct (String.eqb_spec t x) as [->|Hne].
  - rewrite bool_decide_eq_true_2 by done. cbn. by rewrite IH.
  - rewrite bool_decide_eq_false_2 by congruence. done.
Qed.

Lemma value_counts_perm (vs : list value) :
  value_counts vs
  ≡ₚ (fun k => (k, count_of k (List.filter notna vs)))
     <$> keep_first [] (List.filter notna vs).
Proof.
  unfold value_counts.
  by rewrite <- Permutation_rev, stable_sort_perm, <- Permutation_rev.
Qed.

Lemma head_sublist {A} (n : Z) (l : list A) : sublist (head n l) l.
Proof. unfold head. destruct (0 <=? n)%Z; apply sublist_take. Qed.

(** C5: every comma-separated piece of a genre field counts once, under its
    trimmed name: the count get_top_genres gives a tag is the number of
    pieces, over all rows, that trim to it; no tag is listed twice; and with
    [n] large enough every tag is listed.  The single row
    "Drama, Comedy, Drama" gives Drama 2 and Comedy 1; trimming is that of
    [str.strip], so a piece that starts with a no-break space counts under
    its bare name too. *)
Theorem top_genres_counts_occurrences :
  (forall df c n,
     genre_column df = Some c ->
     str_accessor (dtype_of c df) (column c df) = Ok tt ->
     exists counts,
       get_top_genres df n = Ok counts /\
       NoDup counts.*1 /\
       (forall g k, (g, k) ∈ counts ->
          exists t, g = Str t /\ t ∈ all_tags c df /\
                    k = occurrences t (all_tags c df)) /\
       ((Z.of_nat (length (all_tags c df)) <= n)%Z ->
        forall t, t ∈ all_tags c df ->
          (Str t, occurrences t (all_tags c df)) ∈ counts)) /\
  get_top_genres drama_row 10 = Ok [(Str "Drama", 2); (Str "Comedy", 1)] /\
  get_top_genres nbsp_genres 10 = Ok [(Str "Drama", 2)].
Proof.
  split; [|split; reflexivity].
  intros df c n Hc Hacc. unfold get_top_genres. rewrite Hc, Hacc. cbn [bind].
  rewrite (str_accessor_text _ (explode_not_num _)). cbn [bind].
  set (vs := str_strip_cell <$> explode (str_split_cell <$> column c df)).
  assert (Hnn : List.filter notna vs = Str <$> all_tags c df)
    by apply exploded_tags.
  pose proof (value_counts_perm vs) as Hperm. rewrite Hnn in Hperm.
  eexists. split; [done|]. split_and!.
  - eapply sublist_NoDup; [|apply fmap_sublist, head_sublist].
    rewrite Hperm, <- list_fmap_compose.
    change (fst ∘ _) with (@id value).
    rewrite list_fmap_id. apply keep_first_NoDup.
  - intros g k Hgk.
    eapply elem_of_sublist in Hgk; [|apply head_sublist].
    rewrite Hperm in Hgk.
    apply list_elem_of_fmap in Hgk as (g' & [= -> ->] & Hg).
    apply keep_first_elem_of in Hg as [Hg _].
    apply list_elem_of_fmap in Hg as (t & -> & Ht).
    exists t. by rewrite count_of_strs.
  - intros Hn t Ht.
    assert (Hall : head n (value_counts vs) = value_counts vs).
    { unfold head. rewrite (proj2 (Z.leb_le 0 n)) by lia.
      apply take_ge. rewrite Hperm, length_fmap.
      pose proof (sublist_length _ _
        (keep_first_sublist [] (Str <$> all_tags c df))) as Hlen.
      rewrite length_fmap in Hlen. lia. }
    rewrite Hall, Hperm. apply list_elem_of_fmap.
    exists (Str t). split; [by rewrite count_of_strs|].
    apply keep_first_elem_of. split; [|by apply not_elem_of_nil].
    by apply list_elem_of_fmap_2.
Qed.

Lemma top_genres_counts_occurrences_witness :
  exists counts,
    get_top_genres drama_row 10 = Ok counts /\
    NoDup counts.*1 /\
    (forall g k, (g, k) ∈ counts ->
       exists t, g = Str t /\ t ∈ all_tags "listed_in" drama_row /\
                 k = occurrences t (all_tags "listed_in" drama_row)) /\
    ((Z.of_nat (length (all_tags "listed_in" drama_row)) <= 10)%Z ->
     forall t, t ∈ all_tags "listed_in" drama_row ->
       (Str t, occurrences t (all_tags "listed_in" drama_row)) ∈ counts).
Proof.
  apply (proj1 top_genres_counts_occurrences); reflexivity.
Defined.

(** ** clean_data *)

Lemma elem_of_object_columns (c : string) (df : DataFrame) :
  c ∈ object_columns df <-> dtypes df !! c = Some DObject.
Proof.
  unfold object_columns. rewrite list_elem_of_fmap. split.
  - intros ([c' d] & -> & H). apply elem_of_map_to_list in H.
    apply map_lookup_filter_Some in H as [H Hd]. cbn in *. by subst.
  - intros H. exists (c, DObject). split; [done|].
    apply elem_of_map_to_list, map_lookup_filter_Some. done.
Qed.

Lemma trimmed_strip_cell (v : value) : trimmed (str_strip_cell v).
Proof. destruct v; cbn; try done. apply strip_idemp. Qed.

Lemma trimmed_fixed (v : value) : trimmed v -> str_strip_cell v = v.
Proof. destruct v; cbn; try done. by intros ->. Qed.

Lemma trimmed_not_num (v : value) : trimmed v -> is_num v = false.
Proof. by destruct v. Qed.

Lemma stripped_col_cell (c : string) (df : DataFrame) (r : gmap string value) :
  stripped_col c df -> r ∈ rows df ->
  r !! c = Some (cell c r) /\ trimmed (cell c r).
Proof.
  intros Hc Hr. destruct (Hc r Hr) as (v & Hv & Ht).
  unfold cell. by rewrite Hv.
Qed.

Lemma fmap_fixed {A} (f : A -> A) (l : list A) :
  (forall x, x ∈ l -> f x = x) -> f <$> l = l.
Proof.
  intros H. rewrite <- (list_fmap_id l) at 2.
  apply list_fmap_ext. intros i x Hx. apply H.
  by eapply list_elem_of_lookup_2.
Qed.

Lemma filter_all {A} (f : A -> bool) (l : list A) :
  (forall x, x ∈ l -> f x = true) -> List.filter f l = l.
Proof.
  induction l as [|x l IH]; intros H; cbn; [done|].
  rewrite H by left. f_equal. apply IH. intros y Hy. apply H. by right.
Qed.

(** Stripping a trimmed object column changes nothing. *)
Lemma str_strip_column_fixed (c : string) (df : DataFrame) :
  dtypes df !! c = Some DObject -> stripped_col c df ->
  str_strip_column c df = Ok df.
Proof.
  intros Hdt Hc. unfold str_strip_column.
  rewrite str_accessor_text.
  - cbn [bind]. f_equal. destruct df as [dt rs]. unfold assign. cbn in *.
    f_equal; [by apply insert_id|].
    apply fmap_fixed. intros r Hr.
    destruct (stripped_col_cell _ _ _ Hc Hr) as [Hv Ht].
    rewrite trimmed_fixed by done. by apply insert_id.
  - apply Forall_fmap, Forall_forall. intros r Hr.
    apply trimmed_not_num. by apply (stripped_col_cell _ _ _ Hc Hr).
Qed.

Lemma strip_columns_fixed (cols : list string) (df : DataFrame) :
  (forall c, c ∈ cols -> dtypes df !! c = Some DObject /\ stripped_col c df) ->
  strip_columns cols df = Ok df.
Proof.
  induction cols as [|c cols IH]; intros H; cbn; [done|].
  rewrite str_strip_column_fixed; [|apply H; by left..].
  cbn [bind]. apply IH. intros c' Hc'. apply H. by right.
Qed.

(** Stripping a column trims it and keeps the trimmed ones trimmed. *)
Lemma str_strip_column_spec (c : string) (df df' : DataFrame) :
  dtypes df !! c = Some DObject ->
  str_strip_column c df = Ok df' ->
  dtypes df' = dtypes df /\
  length (rows df') = length (rows df) /\
  forall c', c' = c \/ stripped_col c' df -> stripped_col c' df'.
Proof.
  intros Hdt. unfold str_strip_column.
  destruct (str_accessor _ _); cbn [bind]; [|done]. intros [= <-].
  unfold assign. cbn [dtypes rows]. split_and!.
  - by apply insert_id.
  - by rewrite length_fmap.
  - intros c' Hc' r Hr. cbn [rows] in Hr.
    apply list_elem_of_fmap in Hr as (r0 & -> & Hr0).
    destruct (decide (c' = c)) as [->|Hne].
    + rewrite lookup_insert_eq. eexists. split; [done|].
      apply trimmed_strip_cell.
    + rewrite lookup_insert_ne by done.
      destruct Hc' as [?|Hc']; [done|]. by apply Hc'.
Qed.

Lemma strip_columns_spec (cols : list string) (df df' : DataFrame) :
  (forall c, c ∈ cols -> dtypes df !! c = Some DObject) ->
  strip_columns cols df = Ok df' ->
  dtypes df' = dtypes df /\
  length (rows df') = length (rows df) /\
  forall c, c ∈ cols \/ stripped_col c df -> stripped_col c df'.
Proof.
  revert df. induction cols as [|c cols IH]; intros df Hdt; cbn.
  - intros [= <-]. split_and!; [done..|].
    intros c [Hc|Hc]; [by apply not_elem_of_nil in Hc|done].
  - destruct (str_strip_column c df) as [df1|] eqn:H1; cbn [bind]; [|done].
    intros Hrest.
    apply str_strip_column_spec in H1 as (Hdt1 & Hlen1 & Hs1);
      [|apply Hdt; by left].
    apply IH in Hrest as (Hdt2 & Hlen2 & Hs2).
    + split_and!; [congruence..|].
      intros c' [Hc'|Hc']; apply Hs2.
      * apply elem_of_cons in Hc' as [->|Hc']; [right; apply Hs1|]; by left.
      * right. apply Hs1. by right.
    + intros c' Hc'. rewrite Hdt1. apply Hdt. by right.
Qed.

Lemma cleaned_drop_duplicates (df : DataFrame) :
  cleaned df -> cleaned (drop_duplicates df).
Proof.
  intros (Hobj & Htitle & Hyear).
  assert (Hsub : forall r, r ∈ rows (drop_duplicates df) -> r ∈ rows df).
  { intros r Hr. eapply elem_of_sublist; [done|apply keep_first_sublist]. }
  split_and!.
  - intros c Hc r Hr. by apply (Hobj c Hc), Hsub.
  - intros Ht r Hr. by apply (Htitle Ht), Hsub.
  - intros Hy. destruct (Hyear Hy) as [Hdt Hkey]. split; [done|].
    intros r Hr. by apply Hkey, Hsub.
Qed.

Lemma drop_missing_title_fixed (df : DataFrame) :
  (has_column "title" df = true ->
   forall r, r ∈ rows df -> notna (cell "title" r) = true) ->
  drop_missing_title df = df.
Proof.
  intros H. unfold drop_missing_title.
  destruct (has_column "title" df); [|done].
  destruct df as [dt rs]. unfold filter_rows. cbn in *. f_equal.
  apply filter_all. by apply H.
Qed.

Section CleanData.
Variable to_double : string -> option Qc.

Lemma coerce_release_year_fixed (df : DataFrame) :
  (has_column "release_year" df = true ->
   dtypes df !! "release_year" = Some DNumeric /\
   forall r, r ∈ rows df -> is_Some (r !! "release_year")) ->
  coerce_release_year to_double df = df.
Proof.
  intros H. unfold coerce_release_year.
  destruct (has_column "release_year" df); [|done].
  destruct H as [Hdt Hkey]; [done|].
  unfold to_numeric. rewrite Hdt. destruct df as [dt rs].
  unfold assign. cbn in *. f_equal; [by apply insert_id|].
  apply fmap_fixed. intros r Hr. destruct (Hkey r Hr) as [v Hv].
  apply insert_id. unfold cell. by rewrite Hv.
Qed.

(** C6: the coercion of release_year is a total function of the frame (it
    cannot raise), it keeps the number of rows, and row by row it leaves the
    other cells alone and turns the release year, in a column of dtype
    object, into the number it reads as, or into NaN when it reads as none;
    a cell that holds no string is kept. *)
Theorem coerce_release_year_best_effort (df : DataFrame) :
  has_column "release_year" df = true ->
  len (coerce_release_year to_double df) = len df /\
  forall i r, rows df !! i = Some r ->
    exists r', rows (coerce_release_year to_double df) !! i = Some r' /\
      (forall c, c <> "release_year" -> r' !! c = r !! c) /\
      (dtype_is_object "release_year" df = true ->
       forall s, cell "release_year" r = Str s ->
         cell "release_year" r'
         = match to_double s with Some q => Num q | None => NaN end) /\
      (is_str (cell "release_year" r) = false ->
       cell "release_year" r' = cell "release_year" r).
Proof.
  intros Hcol. unfold coerce_release_year. rewrite Hcol.
  unfold len, assign. cbn [rows]. split; [by rewrite length_fmap|].
  intros i r Hi. eexists. split; [by rewrite list_lookup_fmap, Hi|].
  split_and!.
  - intros c Hc. by rewrite lookup_insert_ne.
  - intros Ho s Hs. unfold cell at 1. rewrite lookup_insert_eq. cbn.
    unfold to_numeric, dtype_is_object in *.
    destruct (dtypes df !! "release_year") as [[]|]; try done.
    by rewrite Hs.
  - intros Hns. unfold cell at 1. rewrite lookup_insert_eq. cbn.
    unfold to_numeric. destruct (dtypes df !! "release_year") as [[]|];
      try done; by destruct (cell "release_year" r).
Qed.

(** On a cleaned frame, clean_data only drops duplicate rows. *)
Lemma clean_data_cleaned (df : DataFrame) :
  cleaned df -> clean_data to_double df = Ok (drop_duplicates df).
Proof.
  intros Hcl. apply cleaned_drop_duplicates in Hcl.
  destruct Hcl as (Hobj & Htitle & Hyear). unfold clean_data.
  rewrite strip_columns_fixed.
  - cbn [bind]. rewrite drop_missing_title_fixed by done.
    by rewrite coerce_release_year_fixed.
  - intros c Hc. apply elem_of_object_columns in Hc. split; [done|].
    by apply Hobj.
Qed.

(** Whatever clean_data returns is cleaned. *)
Lemma clean_data_establishes (df once : DataFrame) :
  clean_data to_double df = Ok once -> cleaned once.
Proof.
  unfold clean_data.
  destruct (strip_columns _ _) as [S|] eqn:HS; cbn [bind]; [|done].
  intros [= <-].
  apply strip_columns_spec in HS as (Hdt & _ & Hstrip);
    [|intros c; apply elem_of_object_columns].
  set (T := drop_missing_title S).
  assert (HdtT : dtypes T = dtypes S).
  { unfold T, drop_missing_title. by destruct (has_column "title" S). }
  assert (HsubT : forall r, r ∈ rows T -> r ∈ rows S).
  { unfold T, drop_missing_title. destruct (has_column "title" S); [|done].
    intros r Hr. cbn in Hr. apply elem_of_filter_bool in Hr. tauto. }
  assert (HtitleT : has_column "title" T = true ->
                    forall r, r ∈ rows T -> notna (cell "title" r) = true).
  { unfold T, drop_missing_title.
    destruct (has_column "title" S) eqn:Ht.
    - intros _ r Hr. cbn in Hr. apply elem_of_filter_bool in Hr. tauto.
    - by rewrite Ht. }
  assert (HobjT : forall c, dtypes T !! c = Some DObject -> stripped_col c T).
  { intros c Hc r Hr. rewrite HdtT, Hdt in Hc.
    apply (Hstrip c); [left; by apply elem_of_object_columns|by apply HsubT]. }
  clearbody T. clear Hstrip HsubT HdtT Hdt S.
  unfold coerce_release_year.
  destruct (has_column "release_year" T) eqn:Hy.
  - unfold cleaned, assign, has_column. cbn [dtypes rows]. split_and!.
    + intros c Hc r Hr.
      assert (c <> "release_year") as Hne.
      { intros ->. by rewrite lookup_insert_eq in Hc. }
      rewrite lookup_insert_ne in Hc by done.
      apply list_elem_of_fmap in Hr as (r0 & -> & Hr0).
      rewrite lookup_insert_ne by done. by apply (HobjT c).
    + rewrite lookup_insert_ne by done. intros Ht r Hr.
      apply list_elem_of_fmap in Hr as (r0 & -> & Hr0).
      unfold cell. rewrite lookup_insert_ne by done. by apply HtitleT.
    + intros _. rewrite lookup_insert_eq. split; [done|].
      intros r Hr. apply list_elem_of_fmap in Hr as (r0 & -> & Hr0).
      by rewrite lookup_insert_eq.
  - split_and!; [done..|]. by rewrite Hy.
Qed.

(** C2 (amended): a second clean_data never raises on the outcome of a
    first one and only drops the duplicate rows of that outcome (the first of
    equal rows is kept); so clean_data(clean_data(T)) is clean_data(T)
    whenever clean_data(T) has no two equal rows, and the outcome of the
    second application is kept by every further one. *)
Theorem clean_data_twice (df once : DataFrame) :
  clean_data to_double df = Ok once ->
  clean_data to_double once = Ok (drop_duplicates once) /\
  (NoDup (rows once) -> clean_data to_double once = Ok once) /\
  clean_data to_double (drop_duplicates once) = Ok (drop_duplicates once).
Proof.
  intros Hclean. apply clean_data_establishes in Hclean. split_and!.
  - by apply clean_data_cleaned.
  - intros Hnd. rewrite clean_data_cleaned by done. f_equal.
    destruct once as [dt rs]. unfold drop_duplicates. cbn in *. f_equal.
    apply keep_first_id; [done|]. intros r _. apply not_elem_of_nil.
  - rewrite clean_data_cleaned by by apply cleaned_drop_duplicates.
    f_equal. unfold drop_duplicates. cbn. f_equal. apply keep_first_idemp.
Qed.

End CleanData.

Lemma coerce_release_year_best_effort_witness :
  len (coerce_release_year decimal_double raw_years) = len raw_years /\
  forall i r, rows raw_years !! i = Some r ->
    exists r', rows (coerce_release_year decimal_double raw_years) !! i
               = Some r' /\
      (forall c, c <> "release_year" -> r' !! c = r !! c) /\
      (dtype_is_object "release_year" raw_years = true ->
       forall s, cell "release_year" r = Str s ->
         cell "release_year" r'
         = match decimal_double s with Some q => Num q | None => NaN end) /\
      (is_str (cell "release_year" r) = false ->
       cell "release_year" r' = cell "release_year" r).
Proof. apply coerce_release_year_best_effort. reflexivity. Defined.

Lemma clean_data_twice_witness :
  exists once,
    clean_data decimal_double raw_years = Ok once /\
    clean_data decimal_double once = Ok (drop_duplicates once) /\
    (NoDup (rows once) -> clean_data decimal_double once = Ok once) /\
    clean_data decimal_double (drop_duplicates once)
    = Ok (drop_duplicates once).
Proof.
  eexists. split; [reflexivity|].
  apply (clean_data_twice decimal_double raw_years). reflexivity.
Defined.

(** Cleaning the two titles " A" and "A" keeps both rows, now equal; cleaning
    the outcome drops one of them. *)
Lemma clean_data_twice_differs :
  exists once twice,
    clean_data decimal_double spaced_titles = Ok once /\
    clean_data decimal_double once = Ok twice /\
    len once = 2 /\ len twice = 1 /\ once <> twice.
Proof.
  eexists _, _. split_and!; [reflexivity..|].
  intros H. apply (f_equal len) in H. vm_compute in H. discriminate H.
Qed.

(** * Further properties *)

(** ** clean_data, row by row *)

Lemma cell_insert (c c' : string) (v : value) (r : gmap string value) :
  cell c' (<[c := v]> r) = if decide (c' = c) then v else cell c' r.
Proof.
  unfold cell. destruct (decide (c' = c)) as [->|Hne].
  - by rewrite lookup_insert_eq.
  - by rewrite lookup_insert_ne.
Qed.

Lemma str_strip_cell_idemp (v : value) :
  str_strip_cell (str_strip_cell v) = str_strip_cell v.
Proof. apply trimmed_fixed, trimmed_strip_cell. Qed.

Lemma Forall2_compose {A B C} (P : A -> B -> Prop) (Q : B -> C -> Prop)
    (R : A -> C -> Prop) (l : list A) (k : list B) (m : list C) :
  (forall x y z, P x y -> Q y z -> R x z) ->
  Forall2 P l k -> Forall2 Q k m -> Forall2 R l m.
Proof.
  intros HR HP. revert m. induction HP as [|x y l k Hxy _ IH]; intros m HQ.
  - inversion HQ. constructor.
  - inversion HQ as [|? z ? m' Hyz HQ']; subst. constructor; [by eapply HR|].
    by apply IH.
Qed.

Lemma Forall2_filter_r {A B} (P : A -> B -> Prop) (f : B -> bool)
    (l : list A) (k : list B) :
  Forall2 P l k ->
  exists l', sublist l' l /\ Forall2 P l' (List.filter f k).
Proof.
  induction 1 as [|x y l k Hxy _ (l' & Hsub & IH)]; cbn.
  - exists []. by split.
  - destruct (f y).
    + exists (x :: l'). split; [by apply sublist_skip|by constructor].
    + exists l'. split; [by apply sublist_cons|done].
Qed.

Lemma strip_columns_cells (cols : list string) (df df' : DataFrame) :
  strip_columns cols df = Ok df' ->
  Forall2 (fun r r' => forall c,
             cell c r' = if bool_decide (c ∈ cols)
                         then str_strip_cell (cell c r) else cell c r)
          (rows df) (rows df').
Proof.
  revert df. induction cols as [|c0 cols IH]; intros df; cbn.
  - intros [= <-]. apply Forall2_same_length_lookup. split; [done|].
    intros i r r' Hr Hr' c. rewrite bool_decide_eq_false_2.
    + congruence.
    + apply not_elem_of_nil.
  - unfold str_strip_column.
    destruct (str_accessor _ _); cbn [bind]; [|done]. intros Hrest.
    apply IH in Hrest. cbn [assign rows] in Hrest.
    apply Forall2_fmap_l in Hrest.
    eapply Forall2_impl; [exact Hrest|]. cbn. intros r r' Hc c.
    rewrite Hc, cell_insert.
    destruct (decide (c = c0)) as [->|Hne].
    + rewrite (bool_decide_eq_true_2 (c0 ∈ c0 :: cols)) by by left.
      destruct (bool_decide (c0 ∈ cols)); [apply str_strip_cell_idemp|done].
    + destruct (bool_decide (c ∈ cols)) eqn:Hin.
      * apply bool_decide_eq_true in Hin.
        by rewrite bool_decide_eq_true_2 by by right.
      * apply bool_decide_eq_false in Hin.
        rewrite bool_decide_eq_false_2; [done|].
        rewrite not_elem_of_cons. tauto.
Qed.

Section CleanRows.
Variable to_double : string -> option Qc.

Lemma clean_data_steps (df once : DataFrame) :
  clean_data to_double df = Ok once ->
  exists S,
    strip_columns (object_columns (drop_duplicates df)) (drop_duplicates df)
    = Ok S /\
    dtypes S = dtypes df /\
    once = coerce_release_year to_double (drop_missing_title S).
Proof.
  unfold clean_data.
  destruct (strip_columns _ _) as [S|] eqn:HS; cbn [bind]; [|done].
  intros [= <-]. exists S. split_and!; [done| |done].
  apply strip_columns_spec in HS as (Hdt & _); [done|].
  intros c. apply elem_of_object_columns.
Qed.

Lemma drop_missing_title_dtypes (df : DataFrame) :
  dtypes (drop_missing_title df) = dtypes df.
Proof. unfold drop_missing_title. by destruct (has_column "title" df). Qed.

Lemma clean_data_dtypes (df once : DataFrame) :
  clean_data to_double df = Ok once ->
  dtypes once = if has_column "release_year" df
                then <["release_year" := DNumeric]> (dtypes df)
                else dtypes df.
Proof.
  intros (S & _ & Hdt & ->)%clean_data_steps.
  unfold coerce_release_year, has_column.
  rewrite drop_missing_title_dtypes, Hdt.
  destruct (dtypes df !! "release_year"); cbn [assign dtypes].
  - by rewrite drop_missing_title_dtypes, Hdt.
  - by rewrite drop_missing_title_dtypes.
Qed.

(** The cells of the outcome, from the rows left after deduplication. *)
Lemma clean_data_cells (df once : DataFrame) :
  clean_data to_double df = Ok once ->
  exists kept,
    sublist kept (rows (drop_duplicates df)) /\
    Forall2 (fun r r' => forall c,
               cell c r' = clean_cell to_double df c (cell c r))
            kept (rows once).
Proof.
  intros (S & HS & Hdt & ->)%clean_data_steps.
  pose proof (strip_columns_cells _ _ _ HS) as Hcells.
  set (P := fun r r' : gmap string value => forall c,
              cell c r' = if dtype_is_object c df
                          then str_strip_cell (cell c r) else cell c r).
  assert (HP : Forall2 P (rows (drop_duplicates df)) (rows S)).
  { eapply Forall2_impl; [exact Hcells|]. intros r r' H c. rewrite H.
    unfold dtype_is_object.
    destruct (bool_decide _) eqn:Hin.
    - apply bool_decide_eq_true, elem_of_object_columns in Hin.
      cbn [drop_duplicates dtypes] in Hin. by rewrite Hin.
    - apply bool_decide_eq_false in Hin.
      rewrite elem_of_object_columns in Hin.
      cbn [drop_duplicates dtypes] in Hin.
      by destruct (dtypes df !! c) as [[]|]. }
  assert (HT : exists kept, sublist kept (rows (drop_duplicates df)) /\
                 Forall2 P kept (rows (drop_missing_title S))).
  { unfold drop_missing_title. destruct (has_column "title" S).
    - destruct (Forall2_filter_r P (fun r => notna (cell "title" r)) _ _ HP)
        as (kept & Hsub & Hk).
      by exists kept.
    - by exists (rows (drop_duplicates df)). }
  destruct HT as (kept & Hsub & Hk). exists kept. split; [done|].
  assert (Hty : forall c, has_column c (drop_missing_title S) = has_column c df).
  { intros c. unfold has_column. by rewrite drop_missing_title_dtypes, Hdt. }
  assert (Hnum : to_numeric to_double "release_year" (drop_missing_title S)
                 = to_numeric to_double "release_year" df).
  { unfold to_numeric. by rewrite drop_missing_title_dtypes, Hdt. }
  unfold coerce_release_year. rewrite Hty.
  destruct (has_column "release_year" df) eqn:Hy.
  - cbn [assign rows]. apply Forall2_fmap_r.
    eapply Forall2_impl; [exact Hk|]. cbn. intros r r' Hr c.
    rewrite cell_insert, Hnum, !Hr. unfold clean_cell.
    destruct (decide (c = "release_year")) as [->|Hne].
    + by rewrite bool_decide_eq_true_2, Hy by done.
    + by rewrite bool_decide_eq_false_2 by done.
  - eapply Forall2_impl; [exact Hk|]. cbn. intros r r' Hr c.
    rewrite Hr. unfold clean_cell.
    destruct (decide (c = "release_year")) as [->|Hne].
    + rewrite Hy. by rewrite andb_false_r.
    + by rewrite bool_decide_eq_false_2 by done.
Qed.

Lemma kept_rows_sublist (df : DataFrame) (kept : list (gmap string value)) :
  sublist kept (rows (drop_duplicates df)) -> sublist kept (rows df).
Proof. intros H. etransitivity; [exact H|]. apply keep_first_sublist. Qed.

(** X1: the rows clean_data returns are rows of the input, in their order,
    some of them left out; cell by cell, the cell of an object column is
    stripped (a value that is no string becomes null), the release year is
    then read as a number, and every other cell is the one of the input. *)
Theorem clean_data_rows (df once : DataFrame) :
  clean_data to_double df = Ok once ->
  exists kept,
    sublist kept (rows df) /\
    Forall2 (fun r r' => forall c,
               cell c r' = clean_cell to_double df c (cell c r))
            kept (rows once).
Proof.
  intros Hclean.
  destruct (clean_data_cells _ _ Hclean) as (kept & Hsub & Hk).
  exists kept. split; [|exact Hk].
  by apply kept_rows_sublist.
Qed.

End CleanRows.

(** ** clean_data: what the outcome satisfies *)

Section CleanFacts.
Variable to_double : string -> option Qc.

Lemma clean_data_has_column (df once : DataFrame) (c : string) :
  clean_data to_double df = Ok once ->
  has_column c once = has_column c df.
Proof.
  intros Hdt%clean_data_dtypes. unfold has_column in *. rewrite Hdt.
  destruct (dtypes df !! "release_year") eqn:Hy; [|done].
  destruct (decide (c = "release_year")) as [->|Hne].
  - by rewrite lookup_insert_eq, Hy.
  - by rewrite lookup_insert_ne.
Qed.

(** X2: with a title column, no row of the outcome of clean_data lacks its
    title. *)
Theorem clean_data_titles (df once : DataFrame) :
  clean_data to_double df = Ok once ->
  has_column "title" df = true ->
  forall r, r ∈ rows once -> cell "title" r <> NaN.
Proof.
  intros Hclean Ht r Hr.
  pose proof (clean_data_establishes _ _ _ Hclean) as (_ & Htitle & _).
  rewrite (clean_data_has_column _ _ _ Hclean) in Htitle.
  specialize (Htitle Ht r Hr). unfold notna in Htitle.
  by destruct (cell "title" r).
Qed.

(** X3: clean_data keeps the columns: the outcome has the columns of the
    input, each with its dtype, but for release_year, which is numeric
    afterwards. *)
Theorem clean_data_columns (df once : DataFrame) :
  clean_data to_double df = Ok once ->
  (forall c, has_column c once = has_column c df) /\
  (forall c, c <> "release_year" -> dtypes once !! c = dtypes df !! c) /\
  (has_column "release_year" df = true ->
   dtypes once !! "release_year" = Some DNumeric).
Proof.
  intros Hclean. split_and!.
  - intros c. by apply clean_data_has_column.
  - intros c Hne. rewrite (clean_data_dtypes _ _ _ Hclean).
    destruct (has_column "release_year" df); [|done].
    by rewrite lookup_insert_ne.
  - intros Hy. rewrite (clean_data_dtypes _ _ _ Hclean), Hy.
    by rewrite lookup_insert_eq.
Qed.

(** X4: clean_data never adds a row, and a frame without equal rows and
    without a title column keeps all of its rows. *)
Theorem clean_data_row_count (df once : DataFrame) :
  clean_data to_double df = Ok once ->
  len once <= len df /\
  (NoDup (rows df) -> has_column "title" df = false -> len once = len df).
Proof.
  intros Hclean. split.
  - destruct (clean_data_cells _ _ _ Hclean) as (kept & Hsub & Hk).
    unfold len. rewrite <- (Forall2_length _ _ _ Hk).
    by apply sublist_length, kept_rows_sublist.
  - intros Hnd Ht.
    apply clean_data_steps in Hclean as (S & HS & Hdt & ->).
    apply strip_columns_spec in HS as (_ & Hlen & _);
      [|intros c; apply elem_of_object_columns].
    unfold len, coerce_release_year, drop_missing_title, has_column in *.
    rewrite Hdt, Ht. cbn [drop_duplicates rows] in Hlen.
    rewrite keep_first_id in Hlen; [|done|intros; apply not_elem_of_nil].
    destruct (dtypes S !! "release_year"); [|done].
    cbn [assign rows]. by rewrite length_fmap.
Qed.

Lemma cleaned_trimmed (df : DataFrame) (c : string) (r : gmap string value) :
  cleaned df -> dtype_is_object c df = true -> r ∈ rows df ->
  trimmed (cell c r).
Proof.
  intros (Hobj & _) Ho Hr. unfold dtype_is_object in Ho.
  destruct (dtypes df !! c) as [[]|] eqn:Hc; try done.
  by apply (stripped_col_cell _ _ _ (Hobj c Hc) Hr).
Qed.

(** X5: in the outcome of clean_data a cell of an object column is null or
    a string without blanks at either end. *)
Theorem clean_data_trimmed (df once : DataFrame) :
  clean_data to_double df = Ok once ->
  forall c r, dtype_is_object c once = true -> r ∈ rows once ->
    trimmed (cell c r).
Proof.
  intros Hclean c r Ho Hr.
  apply clean_data_establishes in Hclean.
  by apply (cleaned_trimmed once).
Qed.

Lemma strip_columns_returns (cols : list string) (df : DataFrame) :
  (forall c r, c ∈ cols -> r ∈ rows df -> is_num (cell c r) = false) ->
  exists df', strip_columns cols df = Ok df'.
Proof.
  revert df. induction cols as [|c0 cols IH]; intros df H; cbn; [by eexists|].
  unfold str_strip_column. rewrite str_accessor_text.
  - cbn [bind]. apply IH. intros c r Hc Hr. cbn [assign rows] in Hr.
    apply list_elem_of_fmap in Hr as (r0 & -> & Hr0).
    rewrite cell_insert. destruct (decide (c = c0)) as [->|_].
    + by destruct (cell c0 r0).
    + apply H; [by right|done].
  - apply Forall_fmap, Forall_forall. intros r Hr. apply H; [by left|done].
Qed.

Lemma strip_columns_raises (cols : list string) (df : DataFrame) (e : exn) :
  strip_columns cols df = Raise e -> e = AttributeError.
Proof.
  revert df. induction cols as [|c0 cols IH]; intros df; cbn; [done|].
  unfold str_strip_column, str_accessor.
  destruct (_ || _); cbn [bind]; [apply IH|congruence].
Qed.

(** X6: clean_data returns a frame whenever the object columns hold strings
    and nulls only; whatever the input, the only exception it can raise is
    the AttributeError of the [.str] accessor. *)
Theorem clean_data_returns (df : DataFrame) :
  (text_frame df -> exists once, clean_data to_double df = Ok once) /\
  (forall e, clean_data to_double df = Raise e -> e = AttributeError).
Proof.
  unfold clean_data. split.
  - intros Htext.
    destruct (strip_columns_returns (object_columns (drop_duplicates df))
                (drop_duplicates df)) as [S HS].
    + intros c r Hc Hr. apply elem_of_object_columns in Hc.
      apply (Htext c r Hc).
      eapply elem_of_sublist; [exact Hr|apply keep_first_sublist].
    + rewrite HS. cbn [bind]. by eexists.
  - intros e. destruct (strip_columns _ _) eqn:HS; cbn [bind]; [done|].
    intros [= <-]. by apply strip_columns_raises in HS.
Qed.

Lemma clean_data_dtype_year (df once : DataFrame) :
  clean_data to_double df = Ok once ->
  has_column "release_year" df = true ->
  dtypes once !! "release_year" = Some DNumeric.
Proof.
  intros Hclean Hy. rewrite (clean_data_dtypes _ _ _ Hclean), Hy.
  by rewrite lookup_insert_eq.
Qed.

Lemma clean_data_dtype_other (df once : DataFrame) (c : string) :
  clean_data to_double df = Ok once ->
  c <> "release_year" -> dtypes once !! c = dtypes df !! c.
Proof.
  intros Hclean Hne. rewrite (clean_data_dtypes _ _ _ Hclean).
  destruct (has_column "release_year" df); [|done].
  by rewrite lookup_insert_ne.
Qed.

Lemma clean_data_years_no_string (df once : DataFrame) :
  clean_data to_double df = Ok once ->
  has_column "release_year" df = true ->
  dtype_is_object "release_year" df = true \/
    numeric_on "release_year" (rows df) ->
  numeric_on "release_year" (rows once).
Proof.
  intros Hclean Hy Hin.
  destruct (clean_data_cells _ _ _ Hclean) as (kept & Hsub & Hk).
  apply kept_rows_sublist in Hsub.
  apply Forall_forall. intros r' Hr'.
  apply list_elem_of_lookup_1 in Hr' as [i Hi].
  destruct (Forall2_lookup_r _ _ _ _ _ Hk Hi) as (r & Hr & Hc).
  rewrite Hc. unfold clean_cell.
  rewrite bool_decide_eq_true_2, Hy by done. cbn [andb].
  unfold to_numeric, dtype_is_object, has_column in *.
  destruct (dtypes df !! "release_year") as [[]|] eqn:Hdt; try done.
  - unfold to_numeric_cell.
    destruct (cell "release_year" r) as [|s|q]; cbn; try done.
    by destruct (to_double (strip s)).
  - destruct Hin as [?|Hnum]; [done|].
    unfold numeric_on in Hnum. rewrite Forall_forall in Hnum.
    apply Hnum. eapply elem_of_sublist; [|exact Hsub].
    by eapply list_elem_of_lookup_2.
Qed.

(** X7: after clean_data the release years are numbers and nulls, no
    strings, when the column was of dtype object or held no string before. *)
Theorem clean_data_years_numeric (df once : DataFrame) :
  clean_data to_double df = Ok once ->
  dtype_is_object "release_year" df = true \/
    (has_column "release_year" df = true /\
     numeric_on "release_year" (rows df)) ->
  has_column "release_year" once = true /\
  dtype_is_object "release_year" once = false /\
  numeric_on "release_year" (rows once).
Proof.
  intros Hclean Hin.
  assert (Hy : has_column "release_year" df = true).
  { destruct Hin as [Ho|[Hy _]]; [|done].
    unfold dtype_is_object, has_column in *.
    by destruct (dtypes df !! "release_year"). }
  split_and!.
  - by rewrite (clean_data_has_column _ _ _ Hclean).
  - unfold dtype_is_object.
    by rewrite (clean_data_dtype_year _ _ Hclean Hy).
  - apply (clean_data_years_no_string _ _ Hclean Hy).
    destruct Hin as [Ho|[_ Hnum]]; [by left|by right].
Qed.

End CleanFacts.

(** ** summary_stats: counters, year range, average *)

Lemma trunc_mono (a b : Qc) : (a <= b)%Qc -> (trunc a <= trunc b)%Z.
Proof.
  unfold Qcle, Qle, trunc.
  destruct a as [[n1 d1] ?], b as [[n2 d2] ?]. cbn. intros H.
  destruct (Z_lt_le_dec n1 0) as [Hn1|Hn1].
  - destruct (Z_lt_le_dec n2 0) as [Hn2|Hn2].
    + replace n1 with (- (- n1))%Z by lia. replace n2 with (- (- n2))%Z by lia.
      rewrite (Z.quot_opp_l (- n1)), (Z.quot_opp_l (- n2)) by done.
      rewrite !Z.quot_div_nonneg by lia.
      apply Z.opp_le_mono. rewrite !Z.opp_involutive.
      apply Z.div_le_lower_bound; [lia|].
      pose proof (Z.mul_div_le (- n2) (Z.pos d2) ltac:(lia)) as Hq.
      assert (0 <= - n2 / Z.pos d2)%Z by (apply Z.div_pos; lia).
      nia.
    + replace n1 with (- (- n1))%Z by lia.
      rewrite (Z.quot_opp_l (- n1)) by done.
      rewrite !Z.quot_div_nonneg by lia.
      assert (0 <= - n1 / Z.pos d1)%Z by (apply Z.div_pos; lia).
      assert (0 <= n2 / Z.pos d2)%Z by (apply Z.div_pos; lia).
      lia.
  - assert (0 <= n2)%Z by nia.
    rewrite !Z.quot_div_nonneg by lia.
    apply Z.div_le_lower_bound; [lia|].
    pose proof (Z.mul_div_le n1 (Z.pos d1) ltac:(lia)) as Hq.
    assert (0 <= n1 / Z.pos d1)%Z by (apply Z.div_pos; lia).
    nia.
Qed.

Lemma Qc_leb_le (a b : Qc) : Qc_leb a b = true <-> (a <= b)%Qc.
Proof. unfold Qc_leb, Qcle. apply Qle_bool_iff. Qed.

Lemma Qc_leb_gt (a b : Qc) : Qc_leb a b = false -> (b <= a)%Qc.
Proof.
  intros H. destruct (Qclt_le_dec a b) as [Hlt|Hle]; [|done].
  apply Qclt_le_weak, Qc_leb_le in Hlt. congruence.
Qed.

Lemma foldl_value_min_spec (v : value) (nn : list value) :
  is_num v = true -> Forall (fun x => is_num x = true) nn ->
  exists q, foldl value_min v nn = Num q /\ Num q ∈ v :: nn /\
            forall q', Num q' ∈ v :: nn -> (q <= q')%Qc.
Proof.
  revert v. induction nn as [|x nn IH]; intros v Hv Hnn; cbn.
  - destruct v as [| |q]; try done. exists q. split_and!; [done|by left|].
    intros q' [[= ->]|H%not_elem_of_nil]%elem_of_cons; [|done].
    apply Qcle_refl.
  - apply Forall_cons in Hnn as [Hx Hnn].
    destruct v as [| |a]; try done. destruct x as [| |b]; try done.
    destruct (IH (value_min (Num a) (Num b))) as (q & Hq & Hin & Hle);
      [unfold value_min; by destruct (value_leb _ _)|done|].
    exists q. split; [done|].
    unfold value_min, value_leb in Hin, Hle.
    destruct (Qc_leb a b) eqn:Hab.
    + apply Qc_leb_le in Hab. split.
      * apply elem_of_cons in Hin as [->|Hin]; [by left|by do 2 right].
      * intros q' [[= ->]|[[= ->]|H]%elem_of_cons]%elem_of_cons.
        -- apply Hle. by left.
        -- eapply Qcle_trans; [|exact Hab]. apply Hle. by left.
        -- apply Hle. by right.
    + apply Qc_leb_gt in Hab. split.
      * apply elem_of_cons in Hin as [->|Hin]; [right; by left|by do 2 right].
      * intros q' [[= ->]|[[= ->]|H]%elem_of_cons]%elem_of_cons.
        -- eapply Qcle_trans; [|exact Hab]. apply Hle. by left.
        -- apply Hle. by left.
        -- apply Hle. by right.
Qed.

Lemma foldl_value_max_spec (v : value) (nn : list value) :
  is_num v = true -> Forall (fun x => is_num x = true) nn ->
  exists q, foldl value_max v nn = Num q /\ Num q ∈ v :: nn /\
            forall q', Num q' ∈ v :: nn -> (q' <= q)%Qc.
Proof.
  revert v. induction nn as [|x nn IH]; intros v Hv Hnn; cbn.
  - destruct v as [| |q]; try done. exists q. split_and!; [done|by left|].
    intros q' [[= ->]|H%not_elem_of_nil]%elem_of_cons; [|done].
    apply Qcle_refl.
  - apply Forall_cons in Hnn as [Hx Hnn].
    destruct v as [| |a]; try done. destruct x as [| |b]; try done.
    destruct (IH (value_max (Num a) (Num b))) as (q & Hq & Hin & Hle);
      [unfold value_max; by destruct (value_leb _ _)|done|].
    exists q. split; [done|].
    unfold value_max, value_leb in Hin, Hle.
    destruct (Qc_leb a b) eqn:Hab.
    + apply Qc_leb_le in Hab. split.
      * apply elem_of_cons in Hin as [->|Hin]; [right; by left|by do 2 right].
      * intros q' [[= ->]|[[= ->]|H]%elem_of_cons]%elem_of_cons.
        -- eapply Qcle_trans; [exact Hab|]. apply Hle. by left.
        -- apply Hle. by left.
        -- apply Hle. by right.
    + apply Qc_leb_gt in Hab. split.
      * apply elem_of_cons in Hin as [->|Hin]; [by left|by do 2 right].
      * intros q' [[= ->]|[[= ->]|H]%elem_of_cons]%elem_of_cons.
        -- apply Hle. by left.
        -- eapply Qcle_trans; [exact Hab|]. apply Hle. by left.
        -- apply Hle. by right.
Qed.

(** The extremum of a column of numbers and nulls with a number in it. *)
Lemma series_reduce_numeric (pick : value -> value -> value)
    (c : string) (rs : list (gmap string value)) :
  numeric_on c rs ->
  match List.filter notna (cell c <$> rs) with
  | [] => series_reduce pick (cell c <$> rs) = Ok NaN
  | v :: nn =>
      series_reduce pick (cell c <$> rs) = Ok (foldl pick v nn) /\
      is_num v = true /\ Forall (fun x => is_num x = true) nn
  end.
Proof.
  intros Hnum. unfold series_reduce.
  assert (Hall : Forall (fun x => is_num x = true)
                   (List.filter notna (cell c <$> rs))).
  { apply Forall_forall. intros v Hv.
    apply elem_of_filter_bool in Hv as [Hv Hnn].
    apply list_elem_of_fmap in Hv as (r & -> & Hr).
    unfold numeric_on in Hnum. rewrite Forall_forall in Hnum.
    specialize (Hnum r Hr). unfold notna in Hnn. by destruct (cell c r). }
  destruct (List.filter notna (cell c <$> rs)) as [|v nn]; [done|].
  apply Forall_cons in Hall as [Hv Hnn].
  rewrite (proj2 (forallb_forall _ (v :: nn))).
  - done.
  - intros x Hx. apply list_elem_of_In in Hx.
    apply elem_of_cons in Hx as [->|Hx]; [done|].
    rewrite Forall_forall in Hnn. by apply Hnn.
Qed.

Lemma count_two_values (a b : value) (vs : list value) :
  a <> b ->
  length (List.filter (fun v => bool_decide (v = a)) vs)
  + length (List.filter (fun v => bool_decide (v = b)) vs) <= length vs.
Proof.
  intros Hab. induction vs as [|v vs IH]; cbn; [done|].
  destruct (decide (v = a)) as [->|Ha].
  - rewrite bool_decide_eq_true_2, bool_decide_eq_false_2 by done. cbn. lia.
  - rewrite (bool_decide_eq_false_2 (v = a)) by done.
    destruct (bool_decide (v = b)); cbn; lia.
Qed.

Section SummaryFacts.
Variable to_double : string -> option Qc.
Variable int_of_str : string -> option Z.

Lemma average_loop_other (cols : list string) (df : DataFrame)
    (stats stats' : gmap string value) (k : string) :
  average_loop to_double cols df stats = Ok stats' ->
  k <> "average_imdb_score" -> stats' !! k = stats !! k.
Proof.
  induction cols as [|c cols IH]; cbn; [by intros [= ->]|].
  destruct (has_column c df); [|done].
  destruct (series_mean _) as [m|]; cbn; [|done].
  destruct (py_float _ m) as [f|]; cbn; [|done].
  intros [= <-] Hk. by rewrite lookup_insert_ne.
Qed.

(** The keys summary_stats sets before the average, read back. *)
Lemma summary_stats_lookup (df : DataFrame) (stats : gmap string value) :
  summary_stats to_double int_of_str df = Ok stats ->
  stats !! "total_titles" = Some (of_nat (len df)) /\
  stats !! "num_movies"
  = (if has_column "type" df
     then Some (of_nat (count_equal "type" "Movie" df)) else None) /\
  stats !! "num_tv_shows"
  = (if has_column "type" df
     then Some (of_nat (count_equal "type" "TV Show" df)) else None) /\
  (if has_column "release_year" df
   then exists lo hi e l,
       series_min (column "release_year" df) = Ok lo /\
       series_max (column "release_year" df) = Ok hi /\
       py_int int_of_str lo = Ok e /\ py_int int_of_str hi = Ok l /\
       stats !! "earliest_year" = Some (of_Z e) /\
       stats !! "latest_year" = Some (of_Z l)
   else stats !! "earliest_year" = None /\ stats !! "latest_year" = None).
Proof.
  unfold summary_stats.
  set (s1 := if has_column "type" df then _ else _).
  assert (Hs1 : s1 !! "total_titles" = Some (of_nat (len df)) /\
                s1 !! "num_movies"
                = (if has_column "type" df
                   then Some (of_nat (count_equal "type" "Movie" df))
                   else None) /\
                s1 !! "num_tv_shows"
                = (if has_column "type" df
                   then Some (of_nat (count_equal "type" "TV Show" df))
                   else None) /\
                s1 !! "earliest_year" = None /\ s1 !! "latest_year" = None).
  { subst s1. by destruct (has_column "type" df). }
  destruct Hs1 as (H1 & H2 & H3 & H4 & H5). clearbody s1.
  destruct (has_column "release_year" df); cbn [bind].
  - destruct (series_min _) as [lo|]; cbn [bind]; [|done].
    destruct (py_int _ lo) as [e|] eqn:He; cbn [bind]; [|done].
    destruct (series_max _) as [hi|]; cbn [bind]; [|done].
    destruct (py_int _ hi) as [l|] eqn:Hl; cbn [bind]; [|done].
    intros Hloop.
    rewrite !(average_loop_other _ _ _ _ _ Hloop) by done.
    rewrite lookup_insert_eq, !lookup_insert_ne by done.
    rewrite lookup_insert_eq.
    split_and!; [done..|]. by exists lo, hi, e, l.
  - intros Hloop. by rewrite !(average_loop_other _ _ _ _ _ Hloop) by done.
Qed.

(** X8: whenever summary_stats returns, total_titles is the number of rows;
    with a type column num_movies and num_tv_shows count the rows whose type
    is exactly "Movie" and exactly "TV Show", so that together they never
    exceed total_titles; without a type column neither key is set. *)
Theorem summary_stats_counters (df : DataFrame) (stats : gmap string value) :
  summary_stats to_double int_of_str df = Ok stats ->
  stats !! "total_titles" = Some (of_nat (len df)) /\
  (has_column "type" df = true ->
   exists movies shows,
     stats !! "num_movies" = Some (of_nat movies) /\
     stats !! "num_tv_shows" = Some (of_nat shows) /\
     movies = length (List.filter
                        (fun r => bool_decide (cell "type" r = Str "Movie"))
                        (rows df)) /\
     shows = length (List.filter
                       (fun r => bool_decide (cell "type" r = Str "TV Show"))
                       (rows df)) /\
     movies + shows <= len df) /\
  (has_column "type" df = false ->
   stats !! "num_movies" = None /\ stats !! "num_tv_shows" = None).
Proof.
  intros (H1 & H2 & H3 & _)%summary_stats_lookup.
  assert (Hcount : forall s,
            count_equal "type" s df
            = length (List.filter
                        (fun r => bool_decide (cell "type" r = Str s))
                        (rows df))).
  { intros s. unfold count_equal, column.
    induction (rows df) as [|r rs IH]; cbn; [done|].
    destruct (bool_decide _); cbn; by rewrite IH. }
  split_and!; [done| |].
  - intros Ht. rewrite Ht in H2, H3.
    exists (count_equal "type" "Movie" df), (count_equal "type" "TV Show" df).
    split_and!; [done|done|apply Hcount..|].
    unfold count_equal, len, column.
    rewrite <- (length_fmap (cell "type") (rows df)).
    by apply count_two_values.
  - intros Ht. by rewrite Ht in H2, H3.
Qed.

(** X9: for a release_year column of numbers and nulls, whenever
    summary_stats returns, earliest_year and latest_year are integers with
    earliest_year <= latest_year, each the truncation of a year of the
    column, and the truncation of every year of the column lies between
    them. *)
Theorem summary_stats_year_range (df : DataFrame) (stats : gmap string value) :
  summary_stats to_double int_of_str df = Ok stats ->
  has_column "release_year" df = true ->
  numeric_on "release_year" (rows df) ->
  exists lo hi : Qc,
    Num lo ∈ column "release_year" df /\
    Num hi ∈ column "release_year" df /\
    stats !! "earliest_year" = Some (of_Z (trunc lo)) /\
    stats !! "latest_year" = Some (of_Z (trunc hi)) /\
    (trunc lo <= trunc hi)%Z /\
    forall q, Num q ∈ column "release_year" df ->
      (trunc lo <= trunc q <= trunc hi)%Z.
Proof.
  intros (_ & _ & _ & Hy)%summary_stats_lookup Hcol Hnum.
  rewrite Hcol in Hy.
  destruct Hy as (vlo & vhi & e & l & Hmin & Hmax & He & Hl & Hke & Hkl).
  pose proof (series_reduce_numeric value_min _ _ Hnum) as Hrmin.
  pose proof (series_reduce_numeric value_max _ _ Hnum) as Hrmax.
  unfold series_min, series_max, column in *.
  destruct (List.filter notna (cell "release_year" <$> rows df))
    as [|v nn] eqn:Hnn.
  { rewrite Hrmin in Hmin. injection Hmin as <-. done. }
  destruct Hrmin as (Hrmin & Hv & Hall). destruct Hrmax as (Hrmax & _ & _).
  rewrite Hrmin in Hmin. rewrite Hrmax in Hmax.
  injection Hmin as <-. injection Hmax as <-.
  destruct (foldl_value_min_spec v nn Hv Hall) as (lo & Hlo & Hlo_in & Hlo_le).
  destruct (foldl_value_max_spec v nn Hv Hall) as (hi & Hhi & Hhi_in & Hhi_le).
  rewrite Hlo in He. rewrite Hhi in Hl. cbn in He, Hl.
  injection He as <-. injection Hl as <-.
  assert (Hin : forall q, Num q ∈ cell "release_year" <$> rows df <->
                          Num q ∈ v :: nn).
  { intros q. rewrite <- Hnn, elem_of_filter_bool. unfold notna. cbn. tauto. }
  exists lo, hi. split_and!; [by apply Hin|by apply Hin|done|done| |].
  - apply trunc_mono, Hlo_le, Hhi_in.
  - intros q Hq. split; apply trunc_mono; [apply Hlo_le|apply Hhi_le];
      by apply Hin.
Qed.





End SummaryFacts.

Section SummaryReturns.
Variable to_double : string -> option Qc.
Variable int_of_str : string -> option Z.




End SummaryReturns.

(** ** get_top_genres: order, size, totals, errors *)

Lemma StronglySorted_sublist {A} (R : A -> A -> Prop) (l k : list A) :
  sublist l k -> StronglySorted R k -> StronglySorted R l.
Proof.
  induction 1 as [|x l k Hsub IH|x l k Hsub IH]; intros Hs; [done| |].
  - apply StronglySorted_cons in Hs as [Hx Hs].
    apply StronglySorted_cons. split; [|by apply IH].
    rewrite Forall_forall in Hx |- *. intros y Hy. apply Hx.
    by eapply elem_of_sublist.
  - apply StronglySorted_cons in Hs as [_ Hs]. by apply IH.
Qed.

Lemma value_counts_sorted (vs : list value) :
  StronglySorted (fun a b => b.2 <= a.2) (value_counts vs).
Proof.
  unfold value_counts.
  apply (StronglySorted_weaken
           (flip (fun x y : value * nat => Nat.leb x.2 y.2 = true))).
  { intros x y _ _ H. by apply Nat.leb_le in H. }
  apply StronglySorted_rev.
  apply (stable_sort_sorted Nat.leb snd (fun _ => True)).
  - intros a b _ _. rewrite !Nat.leb_le. lia.
  - intros a b c _ _ _. rewrite !Nat.leb_le. lia.
  - by apply Forall_forall.
Qed.

Lemma count_partition (ks l : list value) :
  NoDup ks ->
  sum_list_with (fun k => count_of k l) ks
  = length (List.filter (fun v => bool_decide (v ∈ ks)) l).
Proof.
  induction 1 as [|k ks Hk _ IH]; cbn.
  - induction l as [|v l IHl]; cbn; [done|].
    by rewrite bool_decide_eq_false_2 by apply not_elem_of_nil.
  - rewrite IH. unfold count_of. clear IH.
    induction l as [|v l IHl]; cbn; [done|].
    destruct (decide (v = k)) as [->|Hne].
    + rewrite (bool_decide_eq_true_2 (k = k)) by done.
      rewrite (bool_decide_eq_true_2 (k ∈ k :: ks)) by by left.
      rewrite (bool_decide_eq_false_2 (k ∈ ks)) by done.
      cbn. lia.
    + rewrite (bool_decide_eq_false_2 (v = k)) by done.
      destruct (decide (v ∈ ks)) as [Hin|Hnin].
      * rewrite (bool_decide_eq_true_2 (v ∈ ks)) by done.
        rewrite (bool_decide_eq_true_2 (v ∈ k :: ks)) by by right.
        cbn. lia.
      * rewrite (bool_decide_eq_false_2 (v ∈ ks)) by done.
        rewrite (bool_decide_eq_false_2 (v ∈ k :: ks))
          by (rewrite not_elem_of_cons; tauto).
        done.
Qed.

Lemma sum_list_with_fmap_pair (f : value -> nat) (ks : list value) :
  sum_list_with snd ((fun k => (k, f k)) <$> ks) = sum_list_with f ks.
Proof. induction ks as [|k ks IH]; cbn; [done|]. by rewrite IH. Qed.

(** The counts of value_counts add up to the number of non-null values. *)
Lemma value_counts_total (vs : list value) :
  sum_list_with snd (value_counts vs) = length (List.filter notna vs).
Proof.
  rewrite value_counts_perm, sum_list_with_fmap_pair.
  rewrite count_partition by apply keep_first_NoDup.
  f_equal. apply filter_all. intros v Hv. apply bool_decide_eq_true_2.
  apply keep_first_elem_of. split; [done|apply not_elem_of_nil].
Qed.

Lemma value_counts_length (vs : list value) :
  length (value_counts vs) <= length (List.filter notna vs).
Proof.
  rewrite value_counts_perm, length_fmap.
  apply sublist_length, keep_first_sublist.
Qed.

(** What get_top_genres computes from a genre column it can read. *)
Lemma get_top_genres_inv (df : DataFrame) (c : string) (n : Z)
    (counts : list (value * nat)) :
  genre_column df = Some c ->
  get_top_genres df n = Ok counts ->
  exists vs, counts = head n (value_counts vs) /\
             List.filter notna vs = Str <$> all_tags c df.
Proof.
  intros Hc. unfold get_top_genres. rewrite Hc.
  destruct (str_accessor (dtype_of c df) _); cbn [bind]; [|done].
  rewrite (str_accessor_text _ (explode_not_num _)). cbn [bind].
  intros [= <-]. eexists. split; [done|]. apply exploded_tags.
Qed.

(** X12: the genres come by count, largest first, and with [n >= 0] there
    are at most [n] of them. *)
Theorem top_genres_ordered (df : DataFrame) (n : Z)
    (counts : list (value * nat)) :
  get_top_genres df n = Ok counts ->
  StronglySorted (fun a b => b.2 <= a.2) counts /\
  ((0 <= n)%Z -> length counts <= Z.to_nat n).
Proof.
  intros Hget.
  destruct (genre_column df) as [c|] eqn:Hc.
  - destruct (get_top_genres_inv _ _ _ _ Hc Hget) as (vs & -> & _). split.
    + eapply StronglySorted_sublist; [apply head_sublist|].
      apply value_counts_sorted.
    + intros Hn. unfold head. rewrite (proj2 (Z.leb_le 0 n)) by done.
      rewrite length_take. lia.
  - unfold get_top_genres in Hget. rewrite Hc in Hget.
    injection Hget as <-. split; [constructor|cbn; lia].
Qed.

(** X13: with [n] at least the number of tags, the counts of get_top_genres
    add up to the number of comma-separated pieces of the whole genre
    column: every piece is counted, and counted once. *)
Theorem top_genres_total (df : DataFrame) (c : string) (n : Z)
    (counts : list (value * nat)) :
  genre_column df = Some c ->
  get_top_genres df n = Ok counts ->
  (Z.of_nat (length (all_tags c df)) <= n)%Z ->
  sum_list_with snd counts = length (all_tags c df).
Proof.
  intros Hc Hget Hn.
  destruct (get_top_genres_inv _ _ _ _ Hc Hget) as (vs & -> & Hvs).
  pose proof (value_counts_length vs) as Hlen.
  rewrite Hvs, length_fmap in Hlen.
  unfold head. rewrite (proj2 (Z.leb_le 0 n)) by lia.
  rewrite take_ge by lia.
  by rewrite value_counts_total, Hvs, length_fmap.
Qed.

Lemma top_genres_returns_text (df : DataFrame) (n : Z) (c : string) :
  genre_column df = Some c -> dtypes df !! c = Some DObject ->
  (forall r, r ∈ rows df -> is_num (cell c r) = false) ->
  exists counts, get_top_genres df n = Ok counts.
Proof.
  intros Hc Hdt Htext. unfold get_top_genres, dtype_of.
  rewrite Hc, Hdt. cbn [default]. rewrite str_accessor_text.
  - cbn [bind]. rewrite (str_accessor_text _ (explode_not_num _)).
    by eexists.
  - apply Forall_fmap, Forall_forall. intros r Hr. by apply Htext.
Qed.

(** X14: get_top_genres returns the empty series without a genre column,
    raises AttributeError on a genre column of numeric dtype, raises nothing
    but AttributeError, and returns on an object column of strings and
    nulls; listed_in is read when both listed_in and genre are there. *)
Theorem top_genres_errors (df : DataFrame) (n : Z) :
  (has_column "listed_in" df = false -> has_column "genre" df = false ->
   get_top_genres df n = Ok []) /\
  (forall c, genre_column df = Some c -> dtypes df !! c = Some DNumeric ->
     get_top_genres df n = Raise AttributeError) /\
  (forall e, get_top_genres df n = Raise e -> e = AttributeError) /\
  (forall c, genre_column df = Some c -> dtypes df !! c = Some DObject ->
     (forall r, r ∈ rows df -> is_num (cell c r) = false) ->
     exists counts, get_top_genres df n = Ok counts) /\
  (has_column "listed_in" df = true -> genre_column df = Some "listed_in").
Proof.
  split_and!.
  - intros H1 H2. unfold get_top_genres, genre_column. by rewrite H1, H2.
  - intros c Hc Hdt. unfold get_top_genres, dtype_of. by rewrite Hc, Hdt.
  - intros e. unfold get_top_genres.
    destruct (genre_column df) as [c|]; [|done].
    unfold str_accessor at 1.
    destruct (dtype_of c df); [|by intros [= <-]].
    destruct (_ || _); cbn [bind]; [|by intros [= <-]].
    by rewrite (str_accessor_text _ (explode_not_num _)).
  - intros c Hc Hdt Htext. by apply (top_genres_returns_text df n c).
  - intros H. unfold genre_column. by rewrite H.
Qed.

(** ** get_top_rated_movies: rows, size, errors *)

Lemma nargsort_perm {A} (key : A -> value) (asc : bool) (l l' : list A) :
  nargsort key asc l = Ok l' -> l' ≡ₚ l.
Proof.
  unfold nargsort. destruct (comparable _); [|done]. intros [= <-].
  etransitivity; [|apply (filter_split_perm (fun x => notna (key x)) l)].
  apply Permutation_app.
  - destruct asc.
    + apply stable_sort_perm.
    + by rewrite <- Permutation_rev, stable_sort_perm, <- Permutation_rev.
  - erewrite List.filter_ext; [done|]. intros x. unfold notna.
    by rewrite negb_involutive.
Qed.

Lemma nargsort_raises {A} (key : A -> value) (asc : bool) (l : list A)
    (e : exn) :
  nargsort key asc l = Raise e -> e = TypeError.
Proof. unfold nargsort. destruct (comparable _); congruence. Qed.

Lemma comparable_false (vs : list value) :
  Forall (fun v => notna v = true) vs ->
  comparable vs = false <->
  exists s q, Str s ∈ vs /\ Num q ∈ vs.
Proof.
  intros Hnn. unfold comparable. rewrite orb_false_iff. split.
  - intros [Hnum Hstr].
    assert (exists s, Str s ∈ vs) as [s Hs].
    { clear Hstr. induction Hnn as [|v vs Hv _ IH]; [done|].
      cbn in Hnum. destruct v as [|s|q]; try done.
      - exists s. by left.
      - destruct IH as [s Hs]; [done|]. exists s. by right. }
    assert (exists q, Num q ∈ vs) as [q Hq].
    { clear Hnum Hs. induction Hnn as [|v vs Hv _ IH]; [done|].
      cbn in Hstr. destruct v as [|s'|q]; try done.
      - destruct IH as [q Hq]; [done|]. exists q. by right.
      - exists q. by left. }
    by exists s, q.
  - intros (s & q & Hs & Hq). split; apply not_true_is_false; intros Hall;
      rewrite forallb_forall in Hall.
    + by specialize (Hall _ (proj1 (list_elem_of_In _ _) Hs)).
    + by specialize (Hall _ (proj1 (list_elem_of_In _ _) Hq)).
Qed.

Lemma top_rated_dtypes (df top : DataFrame) (n : Z) :
  get_top_rated_movies df n = Ok top ->
  rating_column df <> None -> dtypes top = dtypes df.
Proof.
  unfold get_top_rated_movies. destruct (rating_column df) as [c|]; [|done].
  unfold rank_by, sort_values.
  destruct (nargsort _ _ _) as [rs|]; cbn [bind]; [|done].
  intros [= <-] _. apply movie_pool_dtypes.
Qed.

(** A raise of get_top_rated_movies comes from a string and a number met in
    the rating column. *)
Lemma top_rated_raise_inv (df : DataFrame) (n : Z) (c : string) (e : exn) :
  rating_column df = Some c ->
  get_top_rated_movies df n = Raise e ->
  exists r1 r2 s q,
    r1 ∈ movie_pool df /\ r2 ∈ movie_pool df /\
    cell c r1 = Str s /\ cell c r2 = Num q.
Proof.
  intros Hc. unfold get_top_rated_movies, rank_by, sort_values, nargsort.
  rewrite Hc, movie_pool_rows.
  set (nn := List.filter (fun r => notna (cell c r)) (movie_pool df)).
  destruct (comparable (cell c <$> nn)) eqn:Hcmp; cbn [bind]; [done|].
  intros _. apply comparable_false in Hcmp as (s & q & Hs & Hq).
  - apply list_elem_of_fmap in Hs as (r1 & Hs & H1).
    apply list_elem_of_fmap in Hq as (r2 & Hq & H2).
    apply elem_of_filter_bool in H1 as [H1 _].
    apply elem_of_filter_bool in H2 as [H2 _].
    by exists r1, r2, s, q.
  - apply Forall_fmap, Forall_forall. intros r Hr.
    by apply elem_of_filter_bool in Hr as [_ Hr].
Qed.

(** X15: every row get_top_rated_movies returns is a row of the input, of
    type "Movie" when there is a type column; with [n >= 0] at most [n] rows
    are returned, never more than the pool holds; and the result keeps the
    columns of the input when a rating column is found. *)
Theorem top_rated_rows (df top : DataFrame) (n : Z) :
  get_top_rated_movies df n = Ok top ->
  (forall r, r ∈ rows top ->
     r ∈ rows df /\
     (has_column "type" df = true -> cell "type" r = Str "Movie")) /\
  ((0 <= n)%Z -> length (rows top) <= Z.to_nat n) /\
  length (rows top) <= length (movie_pool df) /\
  (rating_column df <> None -> dtypes top = dtypes df).
Proof.
  unfold get_top_rated_movies.
  destruct (rating_column df) as [c|].
  - unfold rank_by, sort_values.
    destruct (nargsort _ _ _) as [rs|] eqn:Hsort; cbn [bind]; [|done].
    intros [= <-]. cbn [rows dtypes].
    apply nargsort_perm in Hsort. rewrite movie_pool_rows in Hsort.
    split_and!.
    + intros r Hr.
      eapply elem_of_sublist in Hr; [|apply head_sublist].
      rewrite Hsort in Hr. split; [by apply movie_pool_elem_of|].
      intros Ht. unfold movie_pool in Hr. rewrite Ht in Hr.
      apply elem_of_filter_bool in Hr as [_ Hr].
      by apply bool_decide_eq_true in Hr.
    + intros Hn. unfold head. rewrite (proj2 (Z.leb_le 0 n)) by done.
      rewrite length_take. lia.
    + rewrite <- Hsort. apply sublist_length, head_sublist.
    + intros _. apply movie_pool_dtypes.
  - intros [= <-]. cbn. split_and!; [|lia|lia|done].
    intros r Hr. by apply not_elem_of_nil in Hr.
Qed.

(** X16: get_top_rated_movies raises exactly when the rating column it
    picked holds, among the rows to rank, both a string and a number, and
    what it raises then is TypeError. *)
Theorem top_rated_type_error (df : DataFrame) (n : Z) (c : string) :
  rating_column df = Some c ->
  (get_top_rated_movies df n = Raise TypeError <->
   exists r1 r2 s q,
     r1 ∈ movie_pool df /\ r2 ∈ movie_pool df /\
     cell c r1 = Str s /\ cell c r2 = Num q) /\
  (forall e, get_top_rated_movies df n = Raise e -> e = TypeError).
Proof.
  intros Hc. unfold get_top_rated_movies, rank_by, sort_values, nargsort.
  rewrite Hc, movie_pool_rows.
  set (nn := List.filter (fun r => notna (cell c r)) (movie_pool df)).
  assert (Hnn : Forall (fun v => notna v = true) (cell c <$> nn)).
  { apply Forall_fmap, Forall_forall. intros r Hr.
    by apply elem_of_filter_bool in Hr as [_ Hr]. }
  pose proof (comparable_false _ Hnn) as Hcmp.
  split.
  - destruct (comparable (cell c <$> nn)); cbn [bind].
    + split; [done|]. intros (r1 & r2 & s & q & H1 & H2 & Hs & Hq).
      enough (true = false) by done. apply Hcmp.
      exists s, q. split; apply list_elem_of_fmap.
      * exists r1. split; [done|]. apply elem_of_filter_bool.
        split; [done|]. by rewrite Hs.
      * exists r2. split; [done|]. apply elem_of_filter_bool.
        split; [done|]. by rewrite Hq.
    + split; [|done]. intros _.
      destruct (proj1 Hcmp eq_refl) as (s & q & Hs & Hq).
      apply list_elem_of_fmap in Hs as (r1 & Hs & H1).
      apply list_elem_of_fmap in Hq as (r2 & Hq & H2).
      apply elem_of_filter_bool in H1 as [H1 _].
      apply elem_of_filter_bool in H2 as [H2 _].
      by exists r1, r2, s, q.
  - intros e. destruct (comparable (cell c <$> nn)); cbn [bind]; congruence.
Qed.

(** ** get_year_counts *)

Lemma count_of_notna (k : value) (vs : list value) :
  k <> NaN -> count_of k (List.filter notna vs) = count_of k vs.
Proof.
  intros Hk. unfold count_of. induction vs as [|v vs IH]; cbn; [done|].
  destruct v as [|s|q]; cbn.
  - rewrite (bool_decide_eq_false_2 (NaN = k)) by congruence. done.
  - destruct (bool_decide (Str s = k)); cbn; by rewrite IH.
  - destruct (bool_decide (Num q = k)); cbn; by rewrite IH.
Qed.

Lemma elem_of_value_counts (vs : list value) (k : value) (m : nat) :
  (k, m) ∈ value_counts vs <->
  k ∈ vs /\ k <> NaN /\ m = count_of k vs.
Proof.
  rewrite value_counts_perm, list_elem_of_fmap. split.
  - intros (k' & [= -> ->] & Hk). apply keep_first_elem_of in Hk as [Hk _].
    apply elem_of_filter_bool in Hk as [Hk Hnn].
    assert (k' <> NaN) by (intros ->; done).
    by rewrite count_of_notna.
  - intros (Hk & Hnn & ->). exists k. rewrite count_of_notna by done.
    split; [done|]. apply keep_first_elem_of.
    split; [|apply not_elem_of_nil].
    apply elem_of_filter_bool. split; [done|]. by destruct k.
Qed.

Lemma value_counts_keys_NoDup (vs : list value) : NoDup (value_counts vs).*1.
Proof.
  rewrite value_counts_perm, <- list_fmap_compose.
  change (fst ∘ _) with (@id value). rewrite list_fmap_id.
  apply keep_first_NoDup.
Qed.

Lemma get_year_counts_numeric (df : DataFrame) :
  has_column "release_year" df = true ->
  numeric_on "release_year" (rows df) ->
  get_year_counts df
  = Ok (stable_sort value_leb fst (value_counts (column "release_year" df))).
Proof.
  intros Hy Hnum. unfold get_year_counts, sort_index, nargsort. rewrite Hy.
  set (vc := value_counts (column "release_year" df)).
  assert (Hkeys : forall kv, kv ∈ vc -> is_num kv.1 = true).
  { intros [k m] (Hk & Hnn & _)%elem_of_value_counts. cbn.
    apply list_elem_of_fmap in Hk as (r & -> & Hr).
    unfold numeric_on in Hnum. rewrite Forall_forall in Hnum.
    specialize (Hnum r Hr). by destruct (cell "release_year" r). }
  rewrite (filter_all (fun x => notna x.1) vc).
  - assert (List.filter (fun x : value * nat => isna x.1) vc = []) as ->.
    { induction vc as [|kv vc IH]; cbn; [done|].
      specialize (Hkeys kv (list_elem_of_here _ _)) as Hkv.
      destruct kv as [[| |q] m]; try done. cbn. apply IH.
      intros kv' Hin. apply Hkeys. by right. }
    assert (comparable vc.*1 = true) as ->.
    { unfold comparable. apply orb_true_intro. left.
      apply forallb_forall. intros k Hk.
      apply list_elem_of_In, list_elem_of_fmap in Hk as (kv & -> & Hkv).
      by apply Hkeys. }
    by rewrite app_nil_r.
  - intros kv Hkv. specialize (Hkeys kv Hkv). unfold notna.
    by destruct kv.1.
Qed.

Lemma year_counts_numeric_spec (df : DataFrame) :
  has_column "release_year" df = true ->
  numeric_on "release_year" (rows df) ->
  exists counts,
    get_year_counts df = Ok counts /\
    StronglySorted (fun a b => value_leb a.1 b.1 = true) counts /\
    NoDup counts.*1 /\
    (forall k m, (k, m) ∈ counts <->
       k ∈ column "release_year" df /\ k <> NaN /\
       m = count_of k (column "release_year" df)).
Proof.
  intros Hy Hnum. eexists. split; [by apply get_year_counts_numeric|].
  split_and!.
  - apply (stable_sort_sorted value_leb fst (fun v => is_num v = true)
             value_leb_total value_leb_trans).
    apply Forall_forall. intros [k m] (Hk & Hnn & _)%elem_of_value_counts.
    cbn. apply list_elem_of_fmap in Hk as (r & -> & Hr).
    unfold numeric_on in Hnum. rewrite Forall_forall in Hnum.
    specialize (Hnum r Hr). by destruct (cell "release_year" r).
  - rewrite stable_sort_perm. apply value_counts_keys_NoDup.
  - intros k m. rewrite stable_sort_perm. apply elem_of_value_counts.
Qed.

(** X17: on a release_year column of numbers and nulls get_year_counts
    returns one entry per distinct year, in ascending order of the year, each
    with the number of rows of that year; nulls have no entry, and the counts
    add up to the number of rows with a year.  Without the column it returns
    the empty series. *)
Theorem year_counts_spec (df : DataFrame) :
  (has_column "release_year" df = false -> get_year_counts df = Ok []) /\
  (has_column "release_year" df = true ->
   numeric_on "release_year" (rows df) ->
   exists counts,
     get_year_counts df = Ok counts /\
     StronglySorted (fun a b => value_leb a.1 b.1 = true) counts /\
     NoDup counts.*1 /\
     (forall k m, (k, m) ∈ counts <->
        k ∈ column "release_year" df /\ k <> NaN /\
        m = count_of k (column "release_year" df)) /\
     sum_list_with snd counts
     = length (List.filter notna (column "release_year" df))).
Proof.
  split.
  - intros Hy. unfold get_year_counts. by rewrite Hy.
  - intros Hy Hnum.
    destruct (year_counts_numeric_spec df Hy Hnum)
      as (counts & Hget & Hsorted & Hnd & Hin).
    exists counts. split_and!; [done..|].
    rewrite (get_year_counts_numeric df Hy Hnum) in Hget.
    injection Hget as <-.
    rewrite stable_sort_perm. apply value_counts_total.
Qed.

(** ** main: the rating printed beside a title *)

Lemma rating_val_loop_spec (cols : list string) (top : DataFrame)
    (row : gmap string value) :
  rating_val_loop cols top row
  = (fun c => cell c row) <$> rating_loop cols top.
Proof.
  induction cols as [|c cols IH]; cbn; [done|].
  destruct (has_column c top); [|done].
  by destruct (bool_decide (c = "rating") && dtype_is_object c top).
Qed.

Lemma rating_loop_dtypes (cols : list string) (df df' : DataFrame) :
  dtypes df' = dtypes df -> rating_loop cols df' = rating_loop cols df.
Proof.
  intros Hdt. induction cols as [|c cols IH]; cbn; [done|].
  unfold has_column, dtype_is_object. by rewrite Hdt, IH.
Qed.

Lemma rating_loop_has_column (cols : list string) (df : DataFrame)
    (c : string) :
  rating_loop cols df = Some c -> has_column c df = true.
Proof.
  induction cols as [|c0 cols IH]; cbn; [done|].
  destruct (has_column c0 df) eqn:Hc0; [|done].
  destruct (bool_decide (c0 = "rating") && dtype_is_object c0 df); [done|].
  by intros [= <-].
Qed.

(** X18: the rating main prints beside a title of the ranking is the value
    the row has in the column get_top_rated_movies ranked by; and when no
    rating column is found the frame main tests is empty. *)
Theorem printed_rating_is_ranked (df top : DataFrame) (n : Z) :
  get_top_rated_movies df n = Ok top ->
  (rating_column df = None -> df_empty top = true) /\
  (forall c r, rating_column df = Some c -> r ∈ rows top ->
     rating_val top r = Some (cell c r)).
Proof.
  intros Htop. split.
  - intros Hnone. unfold get_top_rated_movies in Htop. rewrite Hnone in Htop.
    by injection Htop as <-.
  - intros c r Hc _. unfold rating_val. rewrite rating_val_loop_spec.
    rewrite (rating_loop_dtypes _ df top)
      by (apply (top_rated_dtypes _ _ _ Htop); congruence).
    fold (rating_column df). by rewrite Hc.
Qed.

(** ** main: the year with most releases *)

Lemma idxmax_from_split (best : value * nat) (s : list (value * nat)) :
  exists pre post m,
    best :: s = pre ++ (idxmax_from best s, m) :: post /\
    Forall (fun kv => kv.2 < m) pre /\
    Forall (fun kv => kv.2 <= m) post.
Proof.
  revert best. induction s as [|kv s IH]; intros best; cbn [idxmax_from].
  - exists [], [], best.2. destruct best. by split_and!.
  - destruct (best.2 <? kv.2) eqn:Hlt.
    + apply Nat.ltb_lt in Hlt.
      destruct (IH kv) as (pre & post & m & Heq & Hpre & Hpost).
      exists (best :: pre), post, m. split_and!; [by rewrite Heq| |done].
      constructor; [|done].
      destruct pre as [|p pre]; cbn in Heq.
      * injection Heq as Hkv _. rewrite Hkv in Hlt. cbn in Hlt. lia.
      * injection Heq as Hkv _. subst p.
        apply Forall_cons in Hpre as [Hp _]. lia.
    + apply Nat.ltb_ge in Hlt.
      destruct (IH best) as (pre & post & m & Heq & Hpre & Hpost).
      destruct pre as [|p pre]; cbn in Heq.
      * injection Heq as Hb Hs. exists [], (kv :: post), m.
        split_and!; [cbn; by rewrite <- Hb, <- Hs|done|].
        constructor; [|done]. rewrite Hb in Hlt. cbn in Hlt. lia.
      * injection Heq as Hb Hs. subst p.
        exists (best :: kv :: pre), post, m.
        apply Forall_cons in Hpre as [Hp Hpre].
        split_and!; [cbn; by rewrite <- Hs| |done].
        constructor; [done|]. constructor; [lia|done].
Qed.

Lemma counts_max_split (pre post : list (value * nat)) (k : value) (m : nat) :
  Forall (fun kv => kv.2 < m) pre ->
  Forall (fun kv => kv.2 <= m) post ->
  counts_max (pre ++ (k, m) :: post) = m.
Proof.
  intros Hpre Hpost. unfold counts_max. rewrite fmap_app, foldr_app. cbn.
  assert (foldr Nat.max 0 post.*2 <= m) as Hp.
  { induction Hpost as [|kv post Hkv _ IH]; cbn; lia. }
  rewrite (Nat.max_l m) by done. clear Hp Hpost.
  induction Hpre as [|kv pre Hkv _ IH]; cbn; [done|]. rewrite IH. lia.
Qed.

Section MostReleases.
Variable int_of_str : string -> option Z.

(** X19: on the counts get_year_counts returns for a release_year column of
    numbers and nulls, main finds no year to print when no row has a year;
    otherwise the year it prints is the truncation of a year of the column,
    the count it prints is that year's number of rows and the largest count
    of all, and among the years with that count it is the smallest. *)
Theorem most_releases_spec (df : DataFrame) (counts : list (value * nat)) :
  has_column "release_year" df = true ->
  numeric_on "release_year" (rows df) ->
  get_year_counts df = Ok counts ->
  (counts = [] /\ most_releases int_of_str counts = Ok None /\
   forall r, r ∈ rows df -> cell "release_year" r = NaN) \/
  (exists q m,
     most_releases int_of_str counts = Ok (Some (trunc q, m)) /\
     Num q ∈ column "release_year" df /\
     m = count_of (Num q) (column "release_year" df) /\
     forall k' m', (k', m') ∈ counts ->
       m' <= m /\ (m' = m -> value_leb (Num q) k' = true)).
Proof.
  intros Hy Hnum Hget.
  destruct (year_counts_numeric_spec df Hy Hnum)
    as (counts' & Hget' & Hsorted & Hnd & Hin).
  rewrite Hget in Hget'. injection Hget' as <-.
  destruct counts as [|kv s].
  - left. split_and!; [done..|]. intros r Hr.
    destruct (cell "release_year" r) as [|s|q] eqn:Hc; [done| |].
    + unfold numeric_on in Hnum. rewrite Forall_forall in Hnum.
      specialize (Hnum r Hr). by rewrite Hc in Hnum.
    + assert ((Num q, count_of (Num q) (column "release_year" df)) ∈ [])
        as H%not_elem_of_nil; [|done].
      apply Hin. split_and!; [|done..].
      apply list_elem_of_fmap. by exists r.
  - right. unfold most_releases.
    destruct (idxmax_from_split kv s) as (pre & post & m & Heq & Hpre & Hpost).
    assert ((idxmax_from kv s, m) ∈ kv :: s) as Hbest.
    { rewrite Heq. apply elem_of_app. right. by left. }
    pose proof (proj1 (Hin _ _) Hbest) as (Hk & Hnn & Hm).
    destruct (idxmax_from kv s) as [|str|q] eqn:Hidx; [done| |].
    { apply list_elem_of_fmap in Hk as (r & Hr & Hrin).
      unfold numeric_on in Hnum. rewrite Forall_forall in Hnum.
      specialize (Hnum r Hrin). by rewrite <- Hr in Hnum. }
    exists q, m. cbn [py_int bind]. split_and!; [|done|done|].
    + fold (trunc q). rewrite Heq. by rewrite (counts_max_split _ _ _ _ Hpre Hpost).
    + intros k' m' Hk'. rewrite Heq in Hk', Hsorted.
      apply elem_of_app in Hk' as [Hk'|Hk'].
      * rewrite Forall_forall in Hpre. specialize (Hpre _ Hk'). cbn in Hpre.
        split; lia.
      * apply elem_of_cons in Hk' as [[= -> ->]|Hk'].
        -- split; [done|]. intros _. cbn. apply Qc_leb_le, Qcle_refl.
        -- rewrite Forall_forall in Hpost. specialize (Hpost _ Hk').
           split; [done|]. intros _.
           apply StronglySorted_app in Hsorted as (_ & _ & Hs).
           apply StronglySorted_cons in Hs as [Hs _].
           rewrite Forall_forall in Hs. by apply (Hs _ Hk').
Qed.

End MostReleases.

(** ** The pipeline: cleaning, then the views *)

Section Pipeline.
Variable to_double : string -> option Qc.

Lemma clean_data_well_typed (df once : DataFrame) :
  well_typed df -> clean_data to_double df = Ok once -> well_typed once.
Proof.
  intros Hwt Hclean c Hc.
  destruct (decide (c = "release_year")) as [->|Hne].
  - assert (has_column "release_year" df = true) as Hy.
    { rewrite <- (clean_data_has_column _ _ _ "release_year" Hclean).
      unfold has_column. by rewrite Hc. }
    apply (clean_data_years_no_string _ _ _ Hclean Hy).
    unfold dtype_is_object, has_column in *.
    destruct (dtypes df !! "release_year") as [[]|] eqn:Hdt; try done.
    + by left.
    + right. by apply Hwt.
  - rewrite (clean_data_dtype_other _ _ _ c Hclean) in Hc by done.
    destruct (clean_data_cells _ _ _ Hclean) as (kept & Hsub & Hk).
    apply kept_rows_sublist in Hsub.
    apply Forall_forall. intros r' Hr'.
    apply list_elem_of_lookup_1 in Hr' as [i Hi].
    destruct (Forall2_lookup_r _ _ _ _ _ Hk Hi) as (r & Hr & Hcell).
    rewrite Hcell. unfold clean_cell, dtype_is_object. rewrite Hc.
    rewrite bool_decide_eq_false_2 by done. cbn.
    specialize (Hwt c Hc). unfold numeric_on in Hwt.
    rewrite Forall_forall in Hwt. apply Hwt.
    eapply elem_of_sublist; [|exact Hsub]. by eapply list_elem_of_lookup_2.
Qed.

(** X20: on the outcome of clean_data for a frame whose numeric columns
    hold numbers and nulls, get_top_rated_movies and get_year_counts return
    (neither can raise), and so does get_top_genres unless the genre column
    is numeric. *)
Theorem cleaned_views_return (df once : DataFrame) (n : Z) :
  well_typed df ->
  clean_data to_double df = Ok once ->
  (exists top, get_top_rated_movies once n = Ok top) /\
  (exists years, get_year_counts once = Ok years) /\
  ((forall c, genre_column once = Some c -> dtypes once !! c = Some DObject) ->
   exists genres, get_top_genres once n = Ok genres).
Proof.
  intros Hwt Hclean.
  pose proof (clean_data_well_typed _ _ Hwt Hclean) as Hwt'.
  assert (Htrim : forall c r, dtype_is_object c once = true ->
                    r ∈ rows once -> trimmed (cell c r)).
  { intros c r. apply cleaned_trimmed.
    by apply (clean_data_establishes to_double df). }
  split_and!.
  - destruct (get_top_rated_movies once n) as [top|e] eqn:Hget; [by eexists|].
    destruct (rating_column once) as [c|] eqn:Hc.
    + destruct (top_rated_raise_inv once n c e Hc Hget)
        as (r1 & r2 & s & q & H1 & H2 & Hs & Hq).
      apply movie_pool_elem_of in H1, H2.
      apply rating_loop_has_column in Hc. unfold has_column in Hc.
      destruct (dtypes once !! c) as [[]|] eqn:Hdt; [| |done].
      * assert (trimmed (cell c r2)) as Ht.
        { apply Htrim; [|done]. unfold dtype_is_object. by rewrite Hdt. }
        by rewrite Hq in Ht.
      * specialize (Hwt' c Hdt). unfold numeric_on in Hwt'.
        rewrite Forall_forall in Hwt'. specialize (Hwt' r1 H1).
        by rewrite Hs in Hwt'.
    + unfold get_top_rated_movies in Hget. by rewrite Hc in Hget.
  - destruct (has_column "release_year" once) eqn:Hy.
    + assert (dtypes once !! "release_year" = Some DNumeric) as Hdt.
      { apply (clean_data_dtype_year _ _ _ Hclean).
        by rewrite <- (clean_data_has_column _ _ _ "release_year" Hclean). }
      eexists. apply get_year_counts_numeric; [done|]. by apply Hwt'.
    + exists []. unfold get_year_counts. by rewrite Hy.
  - intros Hobj. destruct (genre_column once) as [c|] eqn:Hc.
    + apply (top_genres_returns_text once n c); [done|by apply Hobj|].
      intros r Hr. apply trimmed_not_num, Htrim; [|done].
      unfold dtype_is_object. by rewrite (Hobj c eq_refl).
    + exists []. unfold get_top_genres. by rewrite Hc.
Qed.

End Pipeline.

(** ** The further properties at sample frames *)

Lemma cell_of_texts (r : gmap string value) (c : string) :
  map_Forall (fun _ v => is_num v = false) r -> is_num (cell c r) = false.
Proof.
  intros H. unfold cell. destruct (r !! c) as [v|] eqn:Hv; [|done].
  by apply (H c v).
Qed.

Lemma raw_years_text : text_frame raw_years.
Proof.
  intros c r _ Hr. apply cell_of_texts.
  cbn in Hr. apply elem_of_cons in Hr as [->|Hr].
  - apply (bool_decide_unpack _). vm_compute. exact I.
  - apply elem_of_cons in Hr as [->|Hr]; [|by apply not_elem_of_nil in Hr].
    apply (bool_decide_unpack _). vm_compute. exact I.
Qed.

Lemma raw_years_well_typed : well_typed raw_years.
Proof.
  intros c Hc. exfalso.
  assert (map_Forall (fun _ d => d = DObject) (dtypes raw_years)) as H.
  { apply (bool_decide_unpack _). vm_compute. exact I. }
  specialize (H c _ Hc). discriminate H.
Qed.

Lemma clean_data_rows_witness :
  exists once,
    clean_data decimal_double raw_years = Ok once /\
    exists kept,
      sublist kept (rows raw_years) /\
      Forall2 (fun r r' => forall c,
                 cell c r' = clean_cell decimal_double raw_years c (cell c r))
              kept (rows once).
Proof.
  eexists. split; [reflexivity|].
  apply (clean_data_rows decimal_double raw_years). reflexivity.
Defined.

Lemma clean_data_titles_witness :
  exists once,
    clean_data decimal_double raw_years = Ok once /\
    forall r, r ∈ rows once -> cell "title" r <> NaN.
Proof.
  eexists. split; [reflexivity|].
  apply (clean_data_titles decimal_double raw_years); reflexivity.
Defined.

Lemma clean_data_columns_witness :
  exists once,
    clean_data decimal_double raw_years = Ok once /\
    (forall c, has_column c once = has_column c raw_years) /\
    (forall c, c <> "release_year" ->
       dtypes once !! c = dtypes raw_years !! c) /\
    (has_column "release_year" raw_years = true ->
     dtypes once !! "release_year" = Some DNumeric).
Proof.
  eexists. split; [reflexivity|].
  apply (clean_data_columns decimal_double raw_years). reflexivity.
Defined.

Lemma clean_data_row_count_witness :
  exists once,
    clean_data decimal_double raw_years = Ok once /\
    len once <= len raw_years /\
    (NoDup (rows raw_years) -> has_column "title" raw_years = false ->
     len once = len raw_years).
Proof.
  eexists. split; [reflexivity|].
  apply (clean_data_row_count decimal_double raw_years). reflexivity.
Defined.

Lemma clean_data_trimmed_witness :
  exists once,
    clean_data decimal_double raw_years = Ok once /\
    forall c r, dtype_is_object c once = true -> r ∈ rows once ->
      trimmed (cell c r).
Proof.
  eexists. split; [reflexivity|].
  apply (clean_data_trimmed decimal_double raw_years). reflexivity.
Defined.

Lemma clean_data_returns_witness :
  exists once, clean_data decimal_double raw_years = Ok once.
Proof.
  apply (proj1 (clean_data_returns decimal_double raw_years)).
  exact raw_years_text.
Defined.

Lemma clean_data_years_numeric_witness :
  exists once,
    clean_data decimal_double raw_years = Ok once /\
    has_column "release_year" once = true /\
    dtype_is_object "release_year" once = false /\
    numeric_on "release_year" (rows once).
Proof.
  eexists. split; [reflexivity|].
  apply (clean_data_years_numeric decimal_double raw_years);
    [reflexivity|left; reflexivity].
Defined.

Lemma summary_stats_counters_witness :
  exists stats,
    summary_stats decimal_double decimal_int sample_movies = Ok stats /\
    stats !! "total_titles" = Some (of_nat (len sample_movies)).
Proof.
  eexists. split; [reflexivity|].
  apply (summary_stats_counters decimal_double decimal_int sample_movies).
  reflexivity.
Defined.

Lemma summary_stats_year_range_witness :
  exists stats,
    summary_stats decimal_double decimal_int year_frame = Ok stats /\
    exists lo hi : Qc,
      Num lo ∈ column "release_year" year_frame /\
      Num hi ∈ column "release_year" year_frame /\
      stats !! "earliest_year" = Some (of_Z (trunc lo)) /\
      stats !! "latest_year" = Some (of_Z (trunc hi)) /\
      (trunc lo <= trunc hi)%Z /\
      forall q, Num q ∈ column "release_year" year_frame ->
        (trunc lo <= trunc q <= trunc hi)%Z.
Proof.
  eexists. split; [reflexivity|].
  apply (summary_stats_year_range decimal_double decimal_int year_frame);
    [reflexivity|reflexivity|repeat constructor].
Defined.



Lemma top_genres_ordered_witness :
  exists counts,
    get_top_genres drama_row 10 = Ok counts /\
    StronglySorted (fun a b => b.2 <= a.2) counts /\
    ((0 <= 10)%Z -> length counts <= Z.to_nat 10).
Proof.
  eexists. split; [reflexivity|].
  apply (top_genres_ordered drama_row 10). reflexivity.
Defined.

Lemma top_genres_total_witness :
  exists counts,
    get_top_genres drama_row 10 = Ok counts /\
    sum_list_with snd counts = length (all_tags "listed_in" drama_row).
Proof.
  eexists. split; [reflexivity|].
  apply (top_genres_total drama_row "listed_in" 10);
    [reflexivity|reflexivity|by vm_compute].
Defined.

Lemma top_genres_errors_witness :
  get_top_genres numeric_genre 10 = Raise AttributeError.
Proof.
  apply (proj1 (proj2 (top_genres_errors numeric_genre 10)) "genre");
    reflexivity.
Defined.

Lemma top_rated_rows_witness :
  exists top,
    get_top_rated_movies sample_movies 2 = Ok top /\
    (forall r, r ∈ rows top ->
       r ∈ rows sample_movies /\
       (has_column "type" sample_movies = true ->
        cell "type" r = Str "Movie")) /\
    ((0 <= 2)%Z -> length (rows top) <= Z.to_nat 2) /\
    length (rows top) <= length (movie_pool sample_movies) /\
    (rating_column sample_movies <> None ->
     dtypes top = dtypes sample_movies).
Proof.
  eexists. split; [reflexivity|].
  apply (top_rated_rows sample_movies _ 2). reflexivity.
Defined.

Lemma top_rated_type_error_witness :
  get_top_rated_movies mixed_scores 10 = Raise TypeError.
Proof.
  apply (proj1 (top_rated_type_error mixed_scores 10 "imdb_score" eq_refl)).
  exists {[ "imdb_score" := Str "N/A" ]}, {[ "imdb_score" := num 7 ]}.
  eexists _, _. split_and!; [by left|right; by left|reflexivity..].
Defined.

Lemma year_counts_spec_witness :
  exists counts,
    get_year_counts year_frame = Ok counts /\
    StronglySorted (fun a b => value_leb a.1 b.1 = true) counts /\
    NoDup counts.*1 /\
    (forall k m, (k, m) ∈ counts <->
       k ∈ column "release_year" year_frame /\ k <> NaN /\
       m = count_of k (column "release_year" year_frame)) /\
    sum_list_with snd counts
    = length (List.filter notna (column "release_year" year_frame)).
Proof.
  apply (proj2 (year_counts_spec year_frame));
    [reflexivity|repeat constructor].
Defined.

Lemma printed_rating_is_ranked_witness :
  exists top,
    get_top_rated_movies sample_movies 2 = Ok top /\
    forall r, r ∈ rows top ->
      rating_val top r = Some (cell "imdb_score" r).
Proof.
  eexists. split; [reflexivity|]. intros r.
  apply (proj2 (printed_rating_is_ranked sample_movies _ 2 eq_refl)).
  reflexivity.
Defined.

Lemma most_releases_spec_witness :
  exists counts,
    get_year_counts year_frame = Ok counts /\
    ((counts = [] /\ most_releases decimal_int counts = Ok None /\
      forall r, r ∈ rows year_frame -> cell "release_year" r = NaN) \/
     (exists q m,
        most_releases decimal_int counts = Ok (Some (trunc q, m)) /\
        Num q ∈ column "release_year" year_frame /\
        m = count_of (Num q) (column "release_year" year_frame) /\
        forall k' m', (k', m') ∈ counts ->
          m' <= m /\ (m' = m -> value_leb (Num q) k' = true))).
Proof.
  eexists. split; [reflexivity|].
  apply (most_releases_spec decimal_int year_frame);
    [reflexivity|repeat constructor|reflexivity].
Defined.

Lemma cleaned_views_return_witness :
  exists once,
    clean_data decimal_double raw_years = Ok once /\
    (exists top, get_top_rated_movies once 10 = Ok top) /\
    (exists years, get_year_counts once = Ok years) /\
    ((forall c, genre_column once = Some c ->
        dtypes once !! c = Some DObject) ->
     exists genres, get_top_genres once 10 = Ok genres).
Proof.
  eexists. split; [reflexivity|].
  apply (cleaned_views_return decimal_double raw_years);
    [exact raw_years_well_typed|reflexivity].
Defined.
